(** * System Specs Collector: the collector and the reporter of [cli.py]

    A shallow embedding of [system_specs_collector/cli.py].  Python values
    are a tagged tree, a [dict] is an association list kept in insertion
    order, a [try]/[except Exception] block is a computation in a small
    error monad, and every call into [psutil], [platform], [GPUtil] and the
    file system reads its outcome from an explicit environment. *)

From Stdlib Require Import List String Ascii ZArith Lia Bool PrimFloat.
From Stdlib Require Finite Decimal DecimalFacts DecimalNat DecimalString.
From Stdlib Require SpecFloat FloatOps.
Import ListNotations.
Local Open Scope string_scope.
Local Open Scope list_scope.

(** ** Python values *)

(** The values that reach the reporter: [None], booleans, integers, floats
    (IEEE binary64, as [PrimFloat.float]), strings, lists and dicts.  The
    keys of every dict of the program are strings. *)
#[warnings="-register-all"] Inductive value : Type :=
| VNone
| VBool (b : bool)
| VInt (n : Z)
| VFloat (f : float)
| VStr (s : string)
| VList (l : list value)
| VDict (d : list (string * value)).

(** A dict seen through [.items()]: the pairs in insertion order. *)
Definition py_dict : Type := list (string * value).

Definition is_dict (v : value) : bool :=
  match v with VDict _ => true | _ => false end.

Definition is_list (v : value) : bool :=
  match v with VList _ => true | _ => false end.

(** Neither a mapping nor a sequence. *)
Definition is_scalar (v : value) : bool :=
  negb (is_dict v) && negb (is_list v).

(** ** Dict primitives *)

(** [d[k] = v]: an existing key keeps its position and takes the new value,
    a new key goes to the end. *)
Fixpoint dict_set (d : py_dict) (k : string) (v : value) : py_dict :=
  match d with
  | [] => [(k, v)]
  | (k', v') :: rest =>
      if String.eqb k' k then (k', v) :: rest
      else (k', v') :: dict_set rest k v
  end.

(** [dict(items)]: the pairs are inserted from left to right. *)
Definition dict_of_items (items : list (string * value)) : py_dict :=
  fold_left (fun d kv => dict_set d (fst kv) (snd kv)) items [].

(** [d.get(k)] as an option. *)
Fixpoint dict_lookup (d : py_dict) (k : string) : option value :=
  match d with
  | [] => None
  | (k', v) :: rest => if String.eqb k' k then Some v else dict_lookup rest k
  end.

(** [d.get(k, default)]. *)
Definition dict_get (d : py_dict) (k : string) (default : value) : value :=
  match dict_lookup d k with Some v => v | None => default end.

(** [k in d]. *)
Definition dict_mem (d : py_dict) (k : string) : bool :=
  match dict_lookup d k with Some _ => true | None => false end.

(** No key occurs twice. *)
Fixpoint keys_unique (ks : list string) : bool :=
  match ks with
  | [] => true
  | k :: rest => negb (existsb (String.eqb k) rest) && keys_unique rest
  end.

(** A value of Python: the keys of every dict in it are pairwise
    distinct. *)
Fixpoint well_formed (v : value) : bool :=
  match v with
  | VDict d =>
      keys_unique (map fst d)
      && (fix entries (d : list (string * value)) : bool :=
            match d with
            | [] => true
            | (_, v') :: rest => well_formed v' && entries rest
            end) d
  | VList l =>
      (fix elems (l : list value) : bool :=
         match l with
         | [] => true
         | x :: rest => well_formed x && elems rest
         end) l
  | _ => true
  end.

(** ** Flattening *)

(** [str(i)] of a list index. *)
Definition str_of_nat (i : nat) : string :=
  DecimalString.NilZero.string_of_uint (Nat.to_uint i).

(** [f"{parent_key}{sep}{k}" if parent_key else k]: the empty string is
    the only falsy string. *)
Definition make_key (parent_key sep k : string) : string :=
  match parent_key with
  | EmptyString => k
  | _ => (parent_key ++ sep ++ k)%string
  end.

(** [f"{new_key} [{i}]"]. *)
Definition index_key (new_key : string) (i : nat) : string :=
  (new_key ++ " [" ++ str_of_nat i ++ "]")%string.

(** [flatten_dict], by recursion on the value that holds the dict: the
    outer [fix] is the loop over [d.items()], the inner one the loop over
    [enumerate(v)]; [items.extend] and [items.append] are list
    concatenation, and the result goes through [dict(items)]. *)
Fixpoint flatten_value (sep : string) (v : value) (parent_key : string)
  {struct v} : py_dict :=
  match v with
  | VDict d =>
      dict_of_items
        ((fix loop (d : list (string * value)) : list (string * value) :=
            match d with
            | [] => []
            | (k, v) :: rest =>
                let new_key := make_key parent_key sep k in
                (match v with
                 | VDict _ => flatten_value sep v new_key
                 | VList l =>
                     (fix each (l : list value) (i : nat)
                        : list (string * value) :=
                        match l with
                        | [] => []
                        | item :: more =>
                            (match item with
                             | VDict _ =>
                                 flatten_value sep item (index_key new_key i)
                             | _ => [(index_key new_key i, item)]
                             end) ++ each more (S i)
                        end) l 0%nat
                 | _ => [(new_key, v)]
                 end) ++ loop rest
            end) d)
  | _ => []
  end.

Definition flatten_dict (d : py_dict) (parent_key sep : string) : py_dict :=
  flatten_value sep (VDict d) parent_key.

(** The default arguments [parent_key=''] and [sep=': ']. *)
Definition default_sep : string := ": ".

Definition flatten (d : py_dict) : py_dict := flatten_dict d "" default_sep.

(** The pieces of the loop body, named so that they can be stated. *)

(** What one element of a list value adds to [items]. *)
Definition element_items (sep new_key : string) (i : nat) (item : value)
  : list (string * value) :=
  match item with
  | VDict d' => flatten_dict d' (index_key new_key i) sep
  | _ => [(index_key new_key i, item)]
  end.

(** [enumerate(l)], counting from [i]. *)
Fixpoint enumerate_from (i : nat) (l : list value) : list (nat * value) :=
  match l with
  | [] => []
  | x :: rest => (i, x) :: enumerate_from (S i) rest
  end.

Definition enumerate (l : list value) : list (nat * value) :=
  enumerate_from 0 l.

(** What a value stored under the path [new_key] adds to [items]: the
    three branches of the loop body. *)
Definition value_items (sep new_key : string) (v : value)
  : list (string * value) :=
  match v with
  | VDict d' => flatten_dict d' new_key sep
  | VList l =>
      flat_map (fun iv => element_items sep new_key (fst iv) (snd iv))
               (enumerate l)
  | _ => [(new_key, v)]
  end.

(** What one [(k, v)] of [d.items()] adds to [items]. *)
Definition entry_items (sep parent_key : string) (kv : string * value)
  : list (string * value) :=
  value_items sep (make_key parent_key sep (fst kv)) (snd kv).

(** [items] when the loop over [d.items()] has finished. *)
Definition loop_items (sep parent_key : string) (d : py_dict)
  : list (string * value) :=
  flat_map (entry_items sep parent_key) d.

(** The number of leaves of a nested value: everything that [flatten_dict]
    appends as a pair of its own. *)
Fixpoint count_leaves (v : value) : nat :=
  match v with
  | VDict d =>
      (fix entries (d : list (string * value)) : nat :=
         match d with
         | [] => 0
         | (_, v') :: rest =>
             (match v' with
              | VDict _ => count_leaves v'
              | VList l =>
                  (fix each (l : list value) : nat :=
                     match l with
                     | [] => 0
                     | item :: more =>
                         (match item with
                          | VDict _ => count_leaves item
                          | _ => 1
                          end) + each more
                     end) l
              | _ => 1
              end) + entries rest
         end) d
  | _ => 1
  end%nat.

(** ** Exceptions *)

(** An exception that [except Exception as e] catches, known by its
    message [str(e)]. *)
Definition exn : Type := string.

Inductive result (A : Type) : Type :=
| Ok (a : A)
| Raise (e : exn).

Arguments Ok {A} a.
Arguments Raise {A} e.

Definition ret {A : Type} (a : A) : result A := Ok a.

Definition bind {A B : Type} (m : result A) (k : A -> result B) : result B :=
  match m with
  | Ok a => k a
  | Raise e => Raise e
  end.

(** [try: body except Exception as e: handler]. *)
Definition try_except {A : Type} (body : result A) (handler : exn -> result A)
  : result A :=
  match body with
  | Ok a => Ok a
  | Raise e => handler e
  end.

Declare Scope result_scope.
Delimit Scope result_scope with result.
Notation "x <- m ;; k" := (bind m (fun x => k))
  (at level 61, m at next level, right associativity) : result_scope.

(** ** The host: what the platform queries answer *)

(** [psutil.cpu_freq()]. *)
Record scpufreq : Type := {
  freq_current : float;
  freq_min : float;
  freq_max : float
}.

(** [psutil.virtual_memory()]. *)
Record svmem : Type := {
  vm_total : Z;
  vm_available : Z;
  vm_used : Z;
  vm_percent : float
}.

(** One element of [psutil.disk_partitions()]. *)
Record sdiskpart : Type := {
  device : string;
  mountpoint : string;
  fstype : string
}.

(** [psutil.disk_usage(path)]. *)
Record sdiskusage : Type := {
  du_total : Z;
  du_used : Z;
  du_free : Z;
  du_percent : float
}.

(** One element of [GPUtil.getGPUs()]. *)
Record GPU : Type := {
  gpu_id : Z;
  gpu_name : string;
  gpu_driver : string;
  gpu_memoryTotal : float;
  gpu_memoryUsed : float;
  gpu_memoryFree : float;
  gpu_load : float;
  gpu_temperature : float
}.

(** The outcome of every call the collector makes: a value, or the
    exception the call raises.  [HAS_GPU] is the flag set by the guarded
    import of [GPUtil], the argument of [psutil_cpu_count] is [logical],
    [now_isoformat] is [datetime.now().isoformat()]. *)
Record host : Type := {
  HAS_GPU : bool;
  GPUtil_getGPUs : result (list GPU);
  psutil_cpu_freq : result (option scpufreq);
  psutil_cpu_count : bool -> result (option Z);
  psutil_cpu_percent_percpu : result (list float);
  psutil_cpu_percent : result float;
  psutil_virtual_memory : result svmem;
  psutil_disk_partitions : result (list sdiskpart);
  psutil_disk_usage : string -> result sdiskusage;
  platform_system : result string;
  platform_node : result string;
  platform_release : result string;
  platform_version : result string;
  platform_machine : result string;
  platform_processor : result string;
  now_isoformat : string
}.

Definition __version__ : string := "1.0.0".

(** [int] or [None]. *)
Definition of_optional_int (n : option Z) : value :=
  match n with Some n => VInt n | None => VNone end.

(** ** The float builtins on binary64 *)

(** An integer as an unrounded float. *)
Definition spec_of_int (n : Z) : SpecFloat.spec_float :=
  match n with
  | Z0 => SpecFloat.S754_zero false
  | Zpos p => SpecFloat.S754_finite false p 0
  | Zneg p => SpecFloat.S754_finite true p 0
  end.

(** [n / d] on two integers: the float nearest to the quotient (ties to
    even), for a divisor other than 0 and a quotient in the range of the
    floats. *)
Definition py_truediv (n d : Z) : float :=
  FloatOps.SF2Prim
    (SpecFloat.SFdiv FloatOps.prec FloatOps.emax
       (spec_of_int n) (spec_of_int d)).

(** The integer nearest to [num / den], ties to even, for [0 < den]. *)
Definition round_half_even (num den : Z) : Z :=
  let q := (num / den)%Z in
  let r := (num mod den)%Z in
  if (2 * r <? den)%Z then q
  else if (den <? 2 * r)%Z then (q + 1)%Z
  else if Z.even q then q else (q + 1)%Z.

(** [round(x, ndigits)] for [0 <= ndigits]: the exact value of [x] is
    rounded to [ndigits] decimals, ties to even, and the float nearest to
    that decimal is returned; zeros, infinities and NaN are returned as
    they are. *)
Definition py_round (x : float) (ndigits : Z) : float :=
  match FloatOps.Prim2SF x with
  | SpecFloat.S754_finite s m e =>
      let scale := (10 ^ ndigits)%Z in
      let k := if (0 <=? e)%Z then (Zpos m * 2 ^ e * scale)%Z
               else round_half_even (Zpos m * scale) (2 ^ (- e)) in
      match k with
      | Zpos p =>
          FloatOps.SF2Prim
            (SpecFloat.SFdiv FloatOps.prec FloatOps.emax
               (SpecFloat.S754_finite s p 0) (spec_of_int scale))
      | _ => FloatOps.SF2Prim (SpecFloat.S754_zero s)
      end
  | _ => x
  end.

(** ** The collector *)

Section Collector.

(** The two float builtins of the collector, true division of two
    integers and [round(x, ndigits)]: the getters are stated for any
    behaviour of the two, [py_truediv] and [py_round] being theirs on
    binary64. *)
Variable truediv : Z -> Z -> float.
Variable round : float -> Z -> float.

Local Open Scope result_scope.

(** [round(n / (1024 ** 3), 2)]. *)
Definition gigabytes (n : Z) : value :=
  VFloat (round (truediv n (1024 ^ 3)) 2).

Definition get_cpu_info (h : host) : result py_dict :=
  try_except
    (freq <- psutil_cpu_freq h ;;
     physical <- psutil_cpu_count h false ;;
     total <- psutil_cpu_count h true ;;
     per_core <- psutil_cpu_percent_percpu h ;;
     usage <- psutil_cpu_percent h ;;
     ret [("Physical cores", of_optional_int physical);
          ("Total cores", of_optional_int total);
          ("Max Frequency (MHz)",
            match freq with Some f => VFloat (freq_max f) | None => VStr "N/A" end);
          ("Min Frequency (MHz)",
            match freq with Some f => VFloat (freq_min f) | None => VStr "N/A" end);
          ("Current Frequency (MHz)",
            match freq with Some f => VFloat (freq_current f) | None => VStr "N/A" end);
          ("CPU Usage per Core (%)", VList (map VFloat per_core));
          ("Total CPU Usage (%)", VFloat usage)])
    (fun e => ret [("Error", VStr ("Failed to get CPU info: " ++ e))]).

Definition get_memory_info (h : host) : result py_dict :=
  try_except
    (svmem <- psutil_virtual_memory h ;;
     ret [("Total (GB)", gigabytes (vm_total svmem));
          ("Available (GB)", gigabytes (vm_available svmem));
          ("Used (GB)", gigabytes (vm_used svmem));
          ("Percentage (%)", VFloat (vm_percent svmem))])
    (fun e => ret [("Error", VStr ("Failed to get memory info: " ++ e))]).

(** The body of the loop over the partitions: the inner [try] with its
    handler, both of which append one record to [disk_data]. *)
Definition read_partition (h : host) (p : sdiskpart) (disk_data : list value)
  : result (list value) :=
  try_except
    (usage <- psutil_disk_usage h (mountpoint p) ;;
     ret (disk_data ++
          [VDict [("Device", VStr (device p));
                  ("Mountpoint", VStr (mountpoint p));
                  ("File system type", VStr (fstype p));
                  ("Total Size (GB)", gigabytes (du_total usage));
                  ("Used (GB)", gigabytes (du_used usage));
                  ("Free (GB)", gigabytes (du_free usage));
                  ("Percentage (%)", VFloat (du_percent usage))]]))
    (fun e =>
       ret (disk_data ++
            [VDict [("Device", VStr (device p));
                    ("Error", VStr ("Failed to read partition: " ++ e))]])).

(** [for p in partitions]: [disk_data] is threaded through the
    iterations; an exception leaves the loop with what has been appended
    so far. *)
Fixpoint read_partitions (h : host) (partitions : list sdiskpart)
  (disk_data : list value) : list value * option exn :=
  match partitions with
  | [] => (disk_data, None)
  | p :: rest =>
      match read_partition h p disk_data with
      | Ok disk_data' => read_partitions h rest disk_data'
      | Raise e => (disk_data, Some e)
      end
  end.

(** [disk_data] is created before the outer [try], so its handler appends
    to whatever the loop has left in it. *)
Definition get_disk_info (h : host) : result (list value) :=
  let disk_data := [] in
  let failed disk_data e :=
    disk_data ++ [VDict [("Error", VStr ("Failed to get disk info: " ++ e))]] in
  match psutil_disk_partitions h with
  | Raise e => ret (failed disk_data e)
  | Ok partitions =>
      match read_partitions h partitions disk_data with
      | (disk_data, None) => ret disk_data
      | (disk_data, Some e) => ret (failed disk_data e)
      end
  end.

Definition get_os_info (h : host) : result py_dict :=
  try_except
    (system <- platform_system h ;;
     node <- platform_node h ;;
     release <- platform_release h ;;
     version <- platform_version h ;;
     machine <- platform_machine h ;;
     processor <- platform_processor h ;;
     ret [("System", VStr system);
          ("Node Name", VStr node);
          ("Release", VStr release);
          ("Version", VStr version);
          ("Machine", VStr machine);
          ("Processor", VStr processor)])
    (fun e => ret [("Error", VStr ("Failed to get OS info: " ++ e))]).

(** The record appended for one device; [gpu_list] is local to the
    [try], so the loop over the devices is a [map]. *)
Definition gpu_record (gpu : GPU) : value :=
  VDict [("ID", VInt (gpu_id gpu));
         ("Name", VStr (gpu_name gpu));
         ("Driver Version", VStr (gpu_driver gpu));
         ("Memory Total (MB)", VFloat (gpu_memoryTotal gpu));
         ("Memory Used (MB)", VFloat (gpu_memoryUsed gpu));
         ("Memory Free (MB)", VFloat (gpu_memoryFree gpu));
         ("Load (%)", VFloat (round (PrimFloat.mul (gpu_load gpu) 100) 1));
         ("Temperature (°C)", VFloat (gpu_temperature gpu))].

Definition get_gpu_info (h : host) : result (list value) :=
  if negb (HAS_GPU h) then
    ret [VDict [("Info", VStr "GPUtil package not installed")]]
  else
    try_except
      (gpus <- GPUtil_getGPUs h ;;
       let gpu_list := map gpu_record gpus in
       ret (match gpus with
            | [] => [VDict [("Info", VStr "No GPUs detected")]]
            | _ :: _ => gpu_list
            end))
      (fun e => ret [VDict [("Error", VStr ("Failed to get GPU info: " ++ e))]]).

(** The dict display evaluates its values from top to bottom. *)
Definition collect_all_info (h : host) : result py_dict :=
  let timestamp := now_isoformat h in
  os_info <- get_os_info h ;;
  cpu_info <- get_cpu_info h ;;
  memory_info <- get_memory_info h ;;
  disk_info <- get_disk_info h ;;
  gpu_info <- get_gpu_info h ;;
  ret [("Timestamp", VStr timestamp);
       ("Version", VStr __version__);
       ("OS Info", VDict os_info);
       ("CPU Info", VDict cpu_info);
       ("Memory Info", VDict memory_info);
       ("Disk Info", VList disk_info);
       ("GPU Info", VList gpu_info)].

End Collector.

(** ** The reporter *)

(** *** Operations on values of any type *)

(** [type(v).__name__]. *)
Definition type_name (v : value) : string :=
  match v with
  | VNone => "NoneType"
  | VBool _ => "bool"
  | VInt _ => "int"
  | VFloat _ => "float"
  | VStr _ => "str"
  | VList _ => "list"
  | VDict _ => "dict"
  end.

(** [v.get(k, default)]: only a dict has the method. *)
Definition py_get (v : value) (k : string) (default : value) : result value :=
  match v with
  | VDict d => Ok (dict_get d k default)
  | _ => Raise ("'" ++ type_name v ++ "' object has no attribute 'get'")%string
  end.

(** [v[0]]; the characters of a string are those of [ascii]. *)
Definition py_first (v : value) : result value :=
  match v with
  | VList (x :: _) => Ok x
  | VList [] => Raise "list index out of range"
  | VStr (String c _) => Ok (VStr (String c EmptyString))
  | VStr EmptyString => Raise "string index out of range"
  | VDict _ => Raise "0"
  | _ => Raise ("'" ++ type_name v ++ "' object is not subscriptable")%string
  end.

(** [needle in haystack] on strings. *)
Fixpoint is_substring (needle haystack : string) : bool :=
  String.prefix needle haystack
  || match haystack with
     | EmptyString => false
     | String _ rest => is_substring needle rest
     end.

(** [k in v] for a string [k]: a key of a dict, an element of a list, a
    substring of a string. *)
Definition py_contains (k : string) (v : value) : result bool :=
  match v with
  | VDict d => Ok (dict_mem d k)
  | VList l =>
      Ok (existsb (fun x => match x with
                            | VStr s => String.eqb k s
                            | _ => false
                            end) l)
  | VStr s => Ok (is_substring k s)
  | _ => Raise ("argument of type '" ++ type_name v ++ "' is not iterable")%string
  end.

(** *** Standard output and files *)

(** An f-string before its values are formatted: literal text and
    interpolated values. *)
Inductive fragment : Type :=
| Lit (s : string)
| Fmt (v : value).

(** The argument of one call of [print]. *)
Definition line : Type := list fragment.

(** What a file holds: nothing yet, the rows given to a [csv.writer], cell
    by cell, the document given to [json.dump] with its indentation, or,
    once a write or the closing of the file has failed, some unknown part
    of what was written (the writes go through a buffer). *)
Inductive file_content : Type :=
| EmptyFile
| CsvRows (rows : list (list value))
| JsonDocument (indent : Z) (data : value)
| TornFile.

(** The world of the reporter: what has been printed, the files, and the
    outcomes of the file operations still to come ([None]: the operation
    succeeds; an exhausted list: every further operation succeeds). *)
Record world : Type := {
  stdout : list line;
  files : list (string * file_content);
  pending : list (option exn)
}.

Definition io (A : Type) : Type := world -> result A * world.

Definition io_ret {A : Type} (a : A) : io A := fun w => (Ok a, w).

Definition io_bind {A B : Type} (m : io A) (k : A -> io B) : io B :=
  fun w =>
    match m w with
    | (Ok a, w') => k a w'
    | (Raise e, w') => (Raise e, w')
    end.

(** [try: body except Exception as e: handler], the handler running in
    the world the body has left. *)
Definition io_try_except {A : Type} (body : io A) (handler : exn -> io A)
  : io A :=
  fun w =>
    match body w with
    | (Ok a, w') => (Ok a, w')
    | (Raise e, w') => handler e w'
    end.

(** An operation on values, inside the reporter. *)
Definition lift {A : Type} (r : result A) : io A := fun w => (r, w).

Declare Scope io_scope.
Delimit Scope io_scope with io.
Notation "x <- m ;; k" := (io_bind m (fun x => k))
  (at level 61, m at next level, right associativity) : io_scope.
Notation "m ;; k" := (io_bind m (fun _ => k))
  (at level 61, right associativity) : io_scope.

(** What standard output does with a line: it takes it ([None]), or
    [print] raises, as on a stream whose encoding cannot express the
    line. *)
Definition terminal : Type := line -> option exn.

(** A standard output that takes every line. *)
Definition accepting : terminal := fun _ => None.

(** [print(...)] on a given standard output: a line that is taken is
    appended to what has been printed, a refused one raises and prints
    nothing. *)
Definition print_on (out : terminal) (l : line) : io unit :=
  fun w =>
    match out l with
    | None => (Ok tt, {| stdout := stdout w ++ [l];
                         files := files w;
                         pending := pending w |})
    | Some e => (Raise e, w)
    end.

(** [print(...)] on a standard output that takes every line: the setting
    of the statements about what is printed. *)
Definition print (l : line) : io unit := print_on accepting l.

(** One file operation: it takes its outcome from [pending]. *)
Definition file_operation : io unit :=
  fun w =>
    match pending w with
    | [] => (Ok tt, w)
    | outcome :: rest =>
        let w' := {| stdout := stdout w; files := files w; pending := rest |} in
        match outcome with
        | None => (Ok tt, w')
        | Some e => (Raise e, w')
        end
    end.

Fixpoint file_lookup (fs : list (string * file_content)) (name : string)
  : option file_content :=
  match fs with
  | [] => None
  | (n, c) :: rest => if String.eqb n name then Some c else file_lookup rest name
  end.

Fixpoint file_store (fs : list (string * file_content)) (name : string)
  (c : file_content) : list (string * file_content) :=
  match fs with
  | [] => [(name, c)]
  | (n, c') :: rest =>
      if String.eqb n name then (n, c) :: rest
      else (n, c') :: file_store rest name c
  end.

Definition set_file (name : string) (c : file_content) : io unit :=
  fun w => (Ok tt, {| stdout := stdout w;
                      files := file_store (files w) name c;
                      pending := pending w |}).

(** [open(filename, 'w', ...)]: the file is created or truncated. *)
Definition open_w (filename : string) : io unit :=
  (file_operation ;; set_file filename EmptyFile)%io.

(** An operation on the open file.  The file object buffers what is
    written, so [files] records what the file holds once it is closed
    without a failure: [content], computed from the files so far.  When
    the operation fails, the file is left torn. *)
Definition file_write (filename : string)
  (content : list (string * file_content) -> file_content) : io unit :=
  fun w =>
    match file_operation w with
    | (Ok _, w') => set_file filename (content (files w')) w'
    | (Raise e, w') => (Raise e, snd (set_file filename TornFile w'))
    end.

(** Leaving a [with] block: the file is flushed and closed, and holds
    what was written when that succeeds. *)
Definition close (filename : string) : io unit :=
  fun w =>
    match file_operation w with
    | (Ok _, w') => (Ok tt, w')
    | (Raise e, w') => (Raise e, snd (set_file filename TornFile w'))
    end.

(** [with open(filename, 'w', ...) as f: body]: the file is closed on
    both exits of the body. *)
Definition with_open {A : Type} (filename : string) (body : io A) : io A :=
  (open_w filename ;;
   fun w =>
     match body w with
     | (Ok a, w') => (close filename ;; io_ret a) w'
     | (Raise e, w') => (close filename ;; lift (Raise e)) w'
     end)%io.

(** The rows a file holds. *)
Definition written_rows (fs : list (string * file_content)) (name : string)
  : list (list value) :=
  match file_lookup fs name with
  | Some (CsvRows rows) => rows
  | _ => []
  end.

(** [writer.writerow(row)] on the writer of the file. *)
Definition writerow (filename : string) (row : list value) : io unit :=
  file_write filename
    (fun fs => CsvRows (written_rows fs filename ++ [row])).

(** [json.dump(data, jsonfile, indent=indent)]. *)
Definition json_dump (data : value) (filename : string) (indent : Z) : io unit :=
  file_write filename (fun _ => JsonDocument indent data).

(** [for x in l: body]. *)
Fixpoint for_each {A : Type} (l : list A) (body : A -> io unit) : io unit :=
  match l with
  | [] => io_ret tt
  | x :: rest => (body x ;; for_each rest body)%io
  end.

Local Open Scope io_scope.

(** The three renderers, on a given standard output. *)

Definition save_to_csv_on (out : terminal) (data : py_dict)
  (filename : string) : io unit :=
  io_try_except
    (let flat_data := flatten data in
     with_open filename
       (writerow filename [VStr "Property"; VStr "Value"] ;;
        for_each flat_data
          (fun kv => writerow filename [VStr (fst kv); snd kv])) ;;
     print_on out [Lit "✅ Successfully saved to "; Fmt (VStr filename)])
    (fun e => print_on out [Lit "❌ Failed to save CSV: "; Fmt (VStr e)]).

Definition save_to_json_on (out : terminal) (data : py_dict)
  (filename : string) : io unit :=
  io_try_except
    (with_open filename
       (json_dump (VDict data) filename 4) ;;
     print_on out [Lit "✅ Successfully saved to "; Fmt (VStr filename)])
    (fun e => print_on out [Lit "❌ Failed to save JSON: "; Fmt (VStr e)]).

(** The savers on a standard output that takes every line. *)
Definition save_to_csv (data : py_dict) (filename : string) : io unit :=
  save_to_csv_on accepting data filename.

Definition save_to_json (data : py_dict) (filename : string) : io unit :=
  save_to_json_on accepting data filename.

(** The line feed of ["\n"]. *)
Definition newline : string := String (ascii_of_nat 10) EmptyString.

(** [s * n]. *)
Fixpoint str_repeat (s : string) (n : nat) : string :=
  match n with
  | O => EmptyString
  | S n' => (s ++ str_repeat s n')%string
  end.

Definition NA : value := VStr "N/A".

Definition print_human_readable_on (out : terminal) (data : py_dict)
  : io unit :=
  print_on out [Lit (newline ++ "System Specs Collector v")%string;
         Fmt (dict_get data "Version" (VStr "1.0.0"))] ;;
  print_on out [Lit (str_repeat "=" 50)] ;;
  print_on out [Lit "Timestamp: "; Fmt (dict_get data "Timestamp" VNone)] ;;
  (* OS Info *)
  let os_info := dict_get data "OS Info" (VDict []) in
  print_on out [Lit (newline ++ "Operating System:")%string] ;;
  system <- lift (py_get os_info "System" NA) ;;
  print_on out [Lit "  System: "; Fmt system] ;;
  version <- lift (py_get os_info "Version" NA) ;;
  print_on out [Lit "  Version: "; Fmt version] ;;
  machine <- lift (py_get os_info "Machine" NA) ;;
  print_on out [Lit "  Machine: "; Fmt machine] ;;
  (* CPU Info *)
  let cpu_info := dict_get data "CPU Info" (VDict []) in
  print_on out [Lit (newline ++ "CPU Information:")%string] ;;
  physical <- lift (py_get cpu_info "Physical cores" NA) ;;
  print_on out [Lit "  Physical Cores: "; Fmt physical] ;;
  total <- lift (py_get cpu_info "Total cores" NA) ;;
  print_on out [Lit "  Total Cores: "; Fmt total] ;;
  frequency <- lift (py_get cpu_info "Current Frequency (MHz)" NA) ;;
  print_on out [Lit "  Current Frequency: "; Fmt frequency; Lit " MHz"] ;;
  usage <- lift (py_get cpu_info "Total CPU Usage (%)" NA) ;;
  print_on out [Lit "  Total Usage: "; Fmt usage; Lit "%"] ;;
  (* Memory Info *)
  let mem_info := dict_get data "Memory Info" (VDict []) in
  print_on out [Lit (newline ++ "Memory Information:")%string] ;;
  mem_total <- lift (py_get mem_info "Total (GB)" NA) ;;
  print_on out [Lit "  Total: "; Fmt mem_total; Lit " GB"] ;;
  mem_used <- lift (py_get mem_info "Used (GB)" NA) ;;
  mem_percent <- lift (py_get mem_info "Percentage (%)" NA) ;;
  print_on out [Lit "  Used: "; Fmt mem_used; Lit " GB ("; Fmt mem_percent; Lit "%)"] ;;
  (* GPU Info *)
  gpu_info <- lift (py_first (dict_get data "GPU Info" (VList [VDict []]))) ;;
  has_name <- lift (py_contains "Name" gpu_info) ;;
  is_device <- (if has_name then io_ret true
                else lift (py_contains "ID" gpu_info)) ;;
  if is_device then
    print_on out [Lit (newline ++ "GPU Information:")%string] ;;
    name <- lift (py_get gpu_info "Name" NA) ;;
    print_on out [Lit "  Name: "; Fmt name] ;;
    gpu_used <- lift (py_get gpu_info "Memory Used (MB)" NA) ;;
    gpu_total <- lift (py_get gpu_info "Memory Total (MB)" NA) ;;
    print_on out [Lit "  Memory: "; Fmt gpu_used; Lit "/"; Fmt gpu_total; Lit " MB"] ;;
    load <- lift (py_get gpu_info "Load (%)" NA) ;;
    print_on out [Lit "  Load: "; Fmt load; Lit "%"]
  else io_ret tt.

(** The text renderer on a standard output that takes every line. *)
Definition print_human_readable (data : py_dict) : io unit :=
  print_human_readable_on accepting data.

Local Close Scope io_scope.

(** No file operation still to come fails. *)
Definition no_fault (w : world) : bool :=
  forallb (fun outcome => match outcome with None => true | Some _ => false end)
          (pending w).

(** The value shown for a field: the field, or ["N/A"] when the record
    has none of that name. *)
Definition shown (record : py_dict) (field : string) : value :=
  match dict_lookup record field with
  | Some v => v
  | None => VStr "N/A"
  end.

(** A fact group of a report, as a record. *)
Definition group (data : py_dict) (name : string) : py_dict :=
  match dict_lookup data name with
  | Some (VDict record) => record
  | _ => []
  end.

(** The first GPU record of a report. *)
Definition first_gpu (data : py_dict) : py_dict :=
  match dict_lookup data "GPU Info" with
  | Some (VList (VDict record :: _)) => record
  | _ => []
  end.

(** The text rendering as the specification describes it: the header with
    version and timestamp, then the OS, CPU and memory sections with their
    chosen fields, each shown with the ["N/A"] fallback, and the GPU
    section only when the first GPU record has a [Name] or an [ID]. *)
Definition spec_text (data : py_dict) : list line :=
  [ [Lit (newline ++ "System Specs Collector v")%string;
     Fmt (dict_get data "Version" (VStr "1.0.0"))];
    [Lit (str_repeat "=" 50)];
    [Lit "Timestamp: "; Fmt (dict_get data "Timestamp" VNone)];
    [Lit (newline ++ "Operating System:")%string];
    [Lit "  System: "; Fmt (shown (group data "OS Info") "System")];
    [Lit "  Version: "; Fmt (shown (group data "OS Info") "Version")];
    [Lit "  Machine: "; Fmt (shown (group data "OS Info") "Machine")];
    [Lit (newline ++ "CPU Information:")%string];
    [Lit "  Physical Cores: ";
     Fmt (shown (group data "CPU Info") "Physical cores")];
    [Lit "  Total Cores: "; Fmt (shown (group data "CPU Info") "Total cores")];
    [Lit "  Current Frequency: ";
     Fmt (shown (group data "CPU Info") "Current Frequency (MHz)");
     Lit " MHz"];
    [Lit "  Total Usage: ";
     Fmt (shown (group data "CPU Info") "Total CPU Usage (%)"); Lit "%"];
    [Lit (newline ++ "Memory Information:")%string];
    [Lit "  Total: "; Fmt (shown (group data "Memory Info") "Total (GB)");
     Lit " GB"];
    [Lit "  Used: "; Fmt (shown (group data "Memory Info") "Used (GB)");
     Lit " GB ("; Fmt (shown (group data "Memory Info") "Percentage (%)");
     Lit "%)"] ]
  ++ (if dict_mem (first_gpu data) "Name" || dict_mem (first_gpu data) "ID"
      then
        [ [Lit (newline ++ "GPU Information:")%string];
          [Lit "  Name: "; Fmt (shown (first_gpu data) "Name")];
          [Lit "  Memory: "; Fmt (shown (first_gpu data) "Memory Used (MB)");
           Lit "/"; Fmt (shown (first_gpu data) "Memory Total (MB)");
           Lit " MB"];
          [Lit "  Load: "; Fmt (shown (first_gpu data) "Load (%)"); Lit "%"] ]
      else []).

(** A world in which nothing has been printed or written yet. *)
Definition fresh (outcomes : list (option exn)) : world :=
  {| stdout := []; files := []; pending := outcomes |}.

(** The report of a host on which every query raises [down] and the GPU
    library is missing: every fact group is an error or sentinel
    record. *)
Definition failed_report : py_dict :=
  [("Timestamp", VStr "2024-01-01T00:00:00");
   ("Version", VStr "1.0.0");
   ("OS Info", VDict [("Error", VStr "Failed to get OS info: down")]);
   ("CPU Info", VDict [("Error", VStr "Failed to get CPU info: down")]);
   ("Memory Info", VDict [("Error", VStr "Failed to get memory info: down")]);
   ("Disk Info",
     VList [VDict [("Error", VStr "Failed to get disk info: down")]]);
   ("GPU Info",
     VList [VDict [("Info", VStr "GPUtil package not installed")]])].

(** The record of one partition, as the loop of [get_disk_info] appends
    it: it depends on the partition and on the answer to its own usage
    query only. *)
Definition partition_record (truediv : Z -> Z -> float)
  (round : float -> Z -> float) (h : host) (p : sdiskpart) : value :=
  match psutil_disk_usage h (mountpoint p) with
  | Ok usage =>
      VDict [("Device", VStr (device p));
             ("Mountpoint", VStr (mountpoint p));
             ("File system type", VStr (fstype p));
             ("Total Size (GB)", gigabytes truediv round (du_total usage));
             ("Used (GB)", gigabytes truediv round (du_used usage));
             ("Free (GB)", gigabytes truediv round (du_free usage));
             ("Percentage (%)", VFloat (du_percent usage))]
  | Raise e =>
      VDict [("Device", VStr (device p));
             ("Error", VStr ("Failed to read partition: " ++ e))]
  end.

(** The exception a call raises, if any. *)
Definition raised {A : Type} (r : result A) : option exn :=
  match r with Ok _ => None | Raise e => Some e end.

(** The first exception of a sequence of calls. *)
Fixpoint first_raised (calls : list (option exn)) : option exn :=
  match calls with
  | [] => None
  | Some e :: _ => Some e
  | None :: rest => first_raised rest
  end.

(** The calls of each getter, in the order in which it makes them. *)
Definition os_calls (h : host) : list (option exn) :=
  [raised (platform_system h); raised (platform_node h);
   raised (platform_release h); raised (platform_version h);
   raised (platform_machine h); raised (platform_processor h)].

Definition cpu_calls (h : host) : list (option exn) :=
  [raised (psutil_cpu_freq h); raised (psutil_cpu_count h false);
   raised (psutil_cpu_count h true); raised (psutil_cpu_percent_percpu h);
   raised (psutil_cpu_percent h)].

(** A host on which every query raises [e]; [has_gpu] and [gpus] are the
    import flag and the answer of [GPUtil.getGPUs()]. *)
Definition failing_host (e : exn) (has_gpu : bool) (gpus : result (list GPU))
  : host :=
  {| HAS_GPU := has_gpu;
     GPUtil_getGPUs := gpus;
     psutil_cpu_freq := Raise e;
     psutil_cpu_count := fun _ => Raise e;
     psutil_cpu_percent_percpu := Raise e;
     psutil_cpu_percent := Raise e;
     psutil_virtual_memory := Raise e;
     psutil_disk_partitions := Raise e;
     psutil_disk_usage := fun _ => Raise e;
     platform_system := Raise e;
     platform_node := Raise e;
     platform_release := Raise e;
     platform_version := Raise e;
     platform_machine := Raise e;
     platform_processor := Raise e;
     now_isoformat := "2024-01-01T00:00:00" |}.

(** A host with two partitions, the usage of the first of which cannot be
    read. *)
Definition two_disks_host : host :=
  {| HAS_GPU := false;
     GPUtil_getGPUs := Ok [];
     psutil_cpu_freq := Ok None;
     psutil_cpu_count := fun _ => Ok (Some 4%Z);
     psutil_cpu_percent_percpu := Ok [];
     psutil_cpu_percent := Ok PrimFloat.zero;
     psutil_virtual_memory :=
       Ok {| vm_total := 16234567890; vm_available := 8589934592;
             vm_used := 7644633298; vm_percent := 47.5%float |};
     psutil_disk_partitions :=
       Ok [ {| device := "/dev/sr0"; mountpoint := "/media/cdrom";
               fstype := "iso9660" |};
            {| device := "/dev/sda1"; mountpoint := "/"; fstype := "ext4" |} ];
     psutil_disk_usage := fun path =>
       if String.eqb path "/" then
         Ok {| du_total := 250059350016; du_used := 52428800000;
               du_free := 197630550016; du_percent := 21.0%float |}
       else Raise "[Errno 123] No medium found";
     platform_system := Ok "Linux";
     platform_node := Ok "host";
     platform_release := Ok "6.1";
     platform_version := Ok "#1";
     platform_machine := Ok "x86_64";
     platform_processor := Ok "";
     now_isoformat := "2024-01-01T00:00:00" |}.

(** *** The shape of a report *)

(** A SystemReport: the seven keys in the order of [collect_all_info],
    three fact groups that are records, the disks a sequence of records
    and the GPUs a sequence of at least one record. *)
Definition SystemReport (data : py_dict) : Prop :=
  exists (timestamp version : string) (os_info cpu_info memory_info : py_dict)
         (disks : list py_dict) (gpu : py_dict) (gpus : list py_dict),
    data = [("Timestamp", VStr timestamp);
            ("Version", VStr version);
            ("OS Info", VDict os_info);
            ("CPU Info", VDict cpu_info);
            ("Memory Info", VDict memory_info);
            ("Disk Info", VList (map VDict disks));
            ("GPU Info", VList (map VDict (gpu :: gpus)))].

(** ** Measures and shapes of nested values *)

(** The leaves below one element of a list value. *)
Definition item_leaves (item : value) : nat :=
  match item with
  | VDict _ => count_leaves item
  | _ => 1
  end.

(** The leaves below the value of one entry of a dict. *)
Definition value_leaves (v : value) : nat :=
  match v with
  | VDict _ => count_leaves v
  | VList l => list_sum (map item_leaves l)
  | _ => 1
  end.

(** No list is an element of a list, at any depth. *)
Fixpoint no_list_in_list (v : value) : bool :=
  match v with
  | VDict d =>
      (fix entries (d : list (string * value)) : bool :=
         match d with
         | [] => true
         | (_, v') :: rest => no_list_in_list v' && entries rest
         end) d
  | VList l =>
      (fix elems (l : list value) : bool :=
         match l with
         | [] => true
         | x :: rest => negb (is_list x) && no_list_in_list x && elems rest
         end) l
  | _ => true
  end.

(** ** The test of [tests/test_basic.py] *)

(** A failed assertion of [unittest]. *)
Definition AssertionError : exn := "AssertionError".

(** [self.assertIn(k, d)]. *)
Definition assertIn (k : string) (d : py_dict) : result unit :=
  if dict_mem d k then Ok tt else Raise AssertionError.

(** [d[k]]: a missing key raises [KeyError(k)]. *)
Definition getitem (d : py_dict) (k : string) : result value :=
  match dict_lookup d k with
  | Some v => Ok v
  | None => Raise ("'" ++ k ++ "'")%string
  end.

(** [self.assertIsInstance(v, int)]; a [bool] is an [int]. *)
Definition assertIsInstance_int (v : value) : result unit :=
  match v with
  | VInt _ | VBool _ => Ok tt
  | _ => Raise AssertionError
  end.

(** [self.assertGreater(v, 0)]: [v > 0] on numbers, a [TypeError] on the
    other values. *)
Definition assertGreater_0 (v : value) : result unit :=
  match v with
  | VInt n => if (0 <? n)%Z then Ok tt else Raise AssertionError
  | VBool b => if b then Ok tt else Raise AssertionError
  | VFloat f => if PrimFloat.ltb PrimFloat.zero f then Ok tt
                else Raise AssertionError
  | _ =>
      Raise ("'>' not supported between instances of '" ++ type_name v
             ++ "' and 'int'")%string
  end.

(** [TestCPUInfo.test_cpu_cores]: the test passes when it returns. *)
Definition test_cpu_cores (h : host) : result unit :=
  (info <- get_cpu_info h ;;
   _ <- assertIn "Physical cores" info ;;
   cores <- getitem info "Physical cores" ;;
   _ <- assertIsInstance_int cores ;;
   cores <- getitem info "Physical cores" ;;
   assertGreater_0 cores)%result.

(** The answer of a query as a value of the report. *)
Definition answer {A : Type} (to_value : A -> value) (r : result A)
  : result value :=
  match r with
  | Ok a => Ok (to_value a)
  | Raise e => Raise e
  end.

(** The device of a partition record. *)
Definition record_device (record : value) : option value :=
  match record with
  | VDict d => dict_lookup d "Device"
  | _ => None
  end.

(** ** Frames of the file operations *)

(** From [w] to [w'] nothing was printed and no file but [name] was
    touched. *)
Definition only_touches (name : string) (w w' : world) : Prop :=
  stdout w' = stdout w
  /\ forall other : string,
       other <> name ->
       file_lookup (files w') other = file_lookup (files w) other.

(** The two notices of a saver. *)
Definition saved_notice (filename : string) : line :=
  [Lit "✅ Successfully saved to "; Fmt (VStr filename)].

Definition csv_failure_notice (e : exn) : line :=
  [Lit "❌ Failed to save CSV: "; Fmt (VStr e)].

Definition json_failure_notice (e : exn) : line :=
  [Lit "❌ Failed to save JSON: "; Fmt (VStr e)].

(** The rows of the CSV file of a report. *)
Definition csv_rows (data : py_dict) : list (list value) :=
  [VStr "Property"; VStr "Value"]
  :: map (fun kv => [VStr (fst kv); snd kv]) (flatten data).

(** The GPU section of the text, for the answer of the GPU query. *)
Definition gpu_section (round : float -> Z -> float) (h : host) : list line :=
  match HAS_GPU h, GPUtil_getGPUs h with
  | true, Ok (gpu :: _) =>
      [ [Lit (newline ++ "GPU Information:")%string];
        [Lit "  Name: "; Fmt (VStr (gpu_name gpu))];
        [Lit "  Memory: "; Fmt (VFloat (gpu_memoryUsed gpu)); Lit "/";
         Fmt (VFloat (gpu_memoryTotal gpu)); Lit " MB"];
        [Lit "  Load: ";
         Fmt (VFloat (round (PrimFloat.mul (gpu_load gpu) 100) 1%Z));
         Lit "%"] ]
  | _, _ => []
  end.

(** ** The command line *)

(** The parsed arguments: [--format] is one of [csv], [json] and [text],
    [--output] is the name of the file without its extension. *)
Record arguments : Type := {
  format : string;
  output : string
}.

(** The defaults of the parser. *)
Definition default_arguments : arguments :=
  {| format := "text"; output := "system_specs" |}.

Section Main.

Variable truediv : Z -> Z -> float.
Variable round : float -> Z -> float.

(** [main] after [parser.parse_args()], on a given standard output. *)
Definition main_on (out : terminal) (args : arguments) (h : host) : io unit :=
  (data <- lift (collect_all_info truediv round h) ;;
   if String.eqb (format args) "csv" then
     save_to_csv_on out data (output args ++ ".csv")
   else if String.eqb (format args) "json" then
     save_to_json_on out data (output args ++ ".json")
   else
     print_human_readable_on out data)%io.

(** [main] on a standard output that takes every line. *)
Definition main (args : arguments) (h : host) : io unit :=
  main_on accepting args h.

End Main.

(** ** Flat records *)

(** A record without nested values and without repeated keys. *)
Definition flat_record (r : py_dict) : bool :=
  forallb is_scalar (map snd r) && keys_unique (map fst r).

(** The pair of a field under the path of its record. *)
Definition under (path sep : string) (kv : string * value) : string * value :=
  ((path ++ sep ++ fst kv)%string, snd kv).

(** The first character of a string. *)
Definition head_char (s : string) : option ascii :=
  match s with
  | EmptyString => None
  | String c _ => Some c
  end.

(** The character ["]"] does not occur. *)
Fixpoint no_bracket (s : string) : bool :=
  match s with
  | EmptyString => true
  | String c rest => negb (Ascii.eqb c "]") && no_bracket rest
  end.


(** The pairs of a list of flat records stored under [new_key], the
    first record having the index [i]. *)
Fixpoint records_items (sep new_key : string) (i : nat) (rs : list py_dict)
  : list (string * value) :=
  match rs with
  | [] => []
  | r :: rest =>
      map (under (index_key new_key i) sep) r
      ++ records_items sep new_key (S i) rest
  end.

(** ** What the text renderer accepts *)

(** The key is missing or holds a record. *)
Definition record_or_missing (data : py_dict) (name : string) : bool :=
  match dict_lookup data name with
  | None | Some (VDict _) => true
  | Some _ => false
  end.



(** ** A standard output with the ASCII codec *)

(** Every character is in the range of ASCII. *)
Fixpoint is_ascii (s : string) : bool :=
  match s with
  | EmptyString => true
  | String c rest => (nat_of_ascii c <? 128)%nat && is_ascii rest
  end.

(** [str(v)] holds characters of ASCII only: the strings inside [v] do.
    (Inside a list or a dict a string is shown by its [repr], which
    escapes the characters that cannot be printed; they count here as
    they stand, so that a few lines more are refused than the codec
    refuses.  The lines of the savers' notices hold no list and no
    dict.) *)
Fixpoint ascii_value (v : value) : bool :=
  match v with
  | VStr s => is_ascii s
  | VList l =>
      (fix elems (l : list value) : bool :=
         match l with
         | [] => true
         | x :: rest => ascii_value x && elems rest
         end) l
  | VDict d =>
      (fix entries (d : list (string * value)) : bool :=
         match d with
         | [] => true
         | (k, v') :: rest => is_ascii k && ascii_value v' && entries rest
         end) d
  | _ => true
  end.

Definition ascii_line (l : line) : bool :=
  forallb (fun f => match f with
                    | Lit s => is_ascii s
                    | Fmt v => ascii_value v
                    end) l.

(** The [UnicodeEncodeError] of the ASCII codec, by the start of its
    message. *)
Definition ascii_codec_error : exn := "'ascii' codec can't encode character".

(** A standard output that encodes with ASCII: it refuses every line that
    holds another character. *)
Definition ascii_stdout : terminal :=
  fun l => if ascii_line l then None else Some ascii_codec_error.

(** ** Lemmas on dicts *)

Lemma dict_set_app_fresh (d : py_dict) (k : string) (v : value) :
  ~ In k (map fst d) -> dict_set d k v = d ++ [(k, v)].
Proof.
  induction d as [|[k' v'] rest IH]; intros Hk; [reflexivity|].
  cbn [dict_set]. destruct (String.eqb_spec k' k) as [->|Hne].
  - exfalso. apply Hk. now left.
  - rewrite <- app_comm_cons. f_equal. apply IH. intros Hin. apply Hk. now right.
Qed.

Lemma fold_dict_set_fresh (items acc : py_dict) :
  NoDup (map fst (acc ++ items)) ->
  fold_left (fun d kv => dict_set d (fst kv) (snd kv)) items acc
  = acc ++ items.
Proof.
  revert acc. induction items as [|[k v] rest IH]; intros acc Hnd.
  - now rewrite app_nil_r.
  - cbn [fold_left fst snd].
    assert (Hfresh : ~ In k (map fst acc)).
    { rewrite map_app in Hnd. cbn [map fst] in Hnd.
      apply NoDup_remove_2 in Hnd. intros Hin. apply Hnd.
      apply in_or_app. now left. }
    rewrite (dict_set_app_fresh _ _ _ Hfresh).
    rewrite IH; rewrite <- app_assoc; [reflexivity | exact Hnd].
Qed.

(** [dict(d.items())] of a dict is that dict. *)
Lemma dict_of_items_NoDup (d : py_dict) :
  NoDup (map fst d) -> dict_of_items d = d.
Proof.
  intros Hnd. unfold dict_of_items. now rewrite fold_dict_set_fresh.
Qed.

Lemma dict_set_keys (d : py_dict) (k : string) (v : value) :
  map fst (dict_set d k v)
  = if existsb (String.eqb k) (map fst d) then map fst d
    else map fst d ++ [k].
Proof.
  induction d as [|[k' v'] rest IH]; [reflexivity|].
  cbn [dict_set map fst existsb].
  rewrite (String.eqb_sym k k').
  destruct (String.eqb_spec k' k) as [->|Hne]; cbn [orb map fst].
  - reflexivity.
  - rewrite IH. now destruct (existsb (String.eqb k) (map fst rest)).
Qed.

Lemma dict_set_NoDup (d : py_dict) (k : string) (v : value) :
  NoDup (map fst d) -> NoDup (map fst (dict_set d k v)).
Proof.
  intros Hnd. rewrite dict_set_keys.
  destruct (existsb (String.eqb k) (map fst d)) eqn:E; [exact Hnd|].
  assert (Hfresh : ~ In k (map fst d)).
  { intros Hin.
    assert (existsb (String.eqb k) (map fst d) = true); [|congruence].
    apply existsb_exists. exists k. split; [exact Hin|apply String.eqb_refl]. }
  clear E. induction (map fst d) as [|x xs IH]; cbn [app].
  - repeat constructor. intros [].
  - inversion Hnd; subst. constructor.
    + intros Hin. apply in_app_or in Hin.
      destruct Hin as [Hin|[<-|[]]]; [contradiction|].
      apply Hfresh. now left.
    + apply IH; [assumption|]. intros Hin. apply Hfresh. now right.
Qed.

(** The keys of [dict(items)] are pairwise distinct. *)
Lemma dict_of_items_keys_NoDup (items : list (string * value)) :
  NoDup (map fst (dict_of_items items)).
Proof.
  unfold dict_of_items.
  assert (H : forall acc : py_dict, NoDup (map fst acc) ->
            NoDup (map fst (fold_left
              (fun d kv => dict_set d (fst kv) (snd kv)) items acc))).
  { induction items as [|kv rest IH]; intros acc Hacc; [exact Hacc|].
    cbn [fold_left]. apply IH. now apply dict_set_NoDup. }
  apply H. constructor.
Qed.

Lemma dict_of_items_idem (items : list (string * value)) :
  dict_of_items (dict_of_items items) = dict_of_items items.
Proof. apply dict_of_items_NoDup, dict_of_items_keys_NoDup. Qed.

(** ** The equations of [flatten_dict] *)

Lemma flatten_dict_unfold (d : py_dict) (parent_key sep : string) :
  flatten_dict d parent_key sep
  = dict_of_items (loop_items sep parent_key d).
Proof.
  unfold flatten_dict, loop_items. cbn [flatten_value]. f_equal.
  induction d as [|[k v] rest IH]; [reflexivity|].
  cbn [flat_map]. rewrite <- IH. f_equal.
  unfold entry_items, value_items. cbn [fst snd].
  destruct v as [| | | | |l|d']; try reflexivity.
  unfold enumerate. generalize 0%nat.
  induction l as [|item more IHl]; intros i; [reflexivity|].
  cbn [enumerate_from flat_map fst snd]. rewrite <- IHl. f_equal.
  destruct item; reflexivity.
Qed.

Lemma flatten_dict_keys_NoDup (d : py_dict) (parent_key sep : string) :
  NoDup (map fst (flatten_dict d parent_key sep)).
Proof. rewrite flatten_dict_unfold. apply dict_of_items_keys_NoDup. Qed.

Lemma loop_items_app (sep parent_key : string) (d1 d2 : py_dict) :
  loop_items sep parent_key (d1 ++ d2)
  = loop_items sep parent_key d1 ++ loop_items sep parent_key d2.
Proof. unfold loop_items. apply flat_map_app. Qed.

(** ** Path strings *)

Lemma append_inv_head (p a b : string) :
  (p ++ a = p ++ b)%string -> a = b.
Proof.
  induction p as [|c p IH]; cbn [append]; [easy|].
  intros [= H]. now apply IH.
Qed.

Lemma list_ascii_of_string_app (a b : string) :
  list_ascii_of_string (a ++ b)
  = list_ascii_of_string a ++ list_ascii_of_string b.
Proof.
  induction a as [|c a IH]; cbn [append list_ascii_of_string app];
    [reflexivity | now rewrite IH].
Qed.

Lemma append_inv_tail (a b t : string) :
  (a ++ t = b ++ t)%string -> a = b.
Proof.
  intros H. apply (f_equal list_ascii_of_string) in H.
  rewrite !list_ascii_of_string_app in H. apply app_inv_tail in H.
  rewrite <- (string_of_list_ascii_of_string a),
          <- (string_of_list_ascii_of_string b).
  now f_equal.
Qed.

Lemma to_uint_nonnil (n : nat) : Nat.to_uint n <> Decimal.Nil.
Proof.
  rewrite <- (DecimalNat.Unsigned.of_to n) at 1.
  rewrite DecimalNat.Unsigned.to_of. apply DecimalFacts.unorm_nonnil.
Qed.

(** Distinct indices print differently. *)
Lemma str_of_nat_inj (i j : nat) : str_of_nat i = str_of_nat j -> i = j.
Proof.
  unfold str_of_nat. intros H.
  apply (f_equal DecimalString.NilZero.uint_of_string) in H.
  rewrite !DecimalString.NilZero.usu in H by apply to_uint_nonnil.
  injection H as H. now apply DecimalNat.Unsigned.to_uint_inj.
Qed.

Lemma index_key_inj (new_key : string) (i j : nat) :
  index_key new_key i = index_key new_key j -> i = j.
Proof.
  unfold index_key. intros H.
  apply append_inv_head in H. apply (append_inv_head " [") in H.
  apply append_inv_tail in H. now apply str_of_nat_inj.
Qed.

Lemma make_key_top (sep k : string) : make_key "" sep k = k.
Proof. reflexivity. Qed.

Lemma make_key_nested (parent_key sep k : string) :
  parent_key <> "" -> make_key parent_key sep k = (parent_key ++ sep ++ k)%string.
Proof. destruct parent_key; [congruence | reflexivity]. Qed.

(** [enumerate] pairs every element with its position. *)
Lemma enumerate_from_nth (l : list value) (i n : nat) :
  nth_error (enumerate_from i l) n
  = option_map (pair (i + n)%nat) (nth_error l n).
Proof.
  revert i n. induction l as [|x rest IH]; intros i [|n];
    cbn [enumerate_from nth_error option_map]; try reflexivity.
  - now rewrite Nat.add_0_r.
  - rewrite IH. now rewrite Nat.add_succ_comm.
Qed.

Lemma enumerate_from_indices (l : list value) (i : nat) :
  map fst (enumerate_from i l) = seq i (List.length l).
Proof.
  revert i. induction l as [|x rest IH]; intros i; [reflexivity|].
  cbn [enumerate_from map fst List.length seq]. now rewrite IH.
Qed.

Lemma enumerate_from_values (l : list value) (i : nat) :
  map snd (enumerate_from i l) = l.
Proof.
  revert i. induction l as [|x rest IH]; intros i; [reflexivity|].
  cbn [enumerate_from map snd]. now rewrite IH.
Qed.

Lemma keys_unique_NoDup (ks : list string) :
  keys_unique ks = true -> NoDup ks.
Proof.
  induction ks as [|k rest IH]; cbn [keys_unique]; [constructor|].
  intros H. apply andb_prop in H. destruct H as [Hk Hrest].
  constructor; [|now apply IH].
  intros Hin. apply negb_true_iff in Hk.
  assert (existsb (String.eqb k) rest = true); [|congruence].
  apply existsb_exists. exists k. split; [exact Hin|apply String.eqb_refl].
Qed.

Lemma loop_items_flat (sep : string) (d : py_dict) :
  forallb is_scalar (map snd d) = true -> loop_items sep "" d = d.
Proof.
  induction d as [|[k v] rest IH]; [reflexivity|].
  cbn [map snd forallb]. intros H. apply andb_prop in H.
  destruct H as [Hv Hrest].
  unfold loop_items in *. cbn [flat_map]. rewrite (IH Hrest).
  unfold entry_items. cbn [fst snd]. rewrite make_key_top.
  destruct v; try discriminate Hv; reflexivity.
Qed.

Lemma element_items_leaf (sep new_key : string) (i : nat) (item : value) :
  is_dict item = false ->
  element_items sep new_key i item = [(index_key new_key i, item)].
Proof. destruct item; [reflexivity .. | discriminate]. Qed.

Lemma list_items_leaves (sep new_key : string) (l : list value) (i : nat) :
  forallb (fun x => negb (is_dict x)) l = true ->
  flat_map (fun iv => element_items sep new_key (fst iv) (snd iv))
           (enumerate_from i l)
  = map (fun iv => (index_key new_key (fst iv), snd iv)) (enumerate_from i l).
Proof.
  revert i. induction l as [|x rest IH]; intros i; [reflexivity|].
  cbn [forallb]. intros H. apply andb_prop in H. destruct H as [Hx Hrest].
  cbn [enumerate_from flat_map map fst snd]. rewrite (IH _ Hrest).
  rewrite element_items_leaf by now apply negb_true_iff. reflexivity.
Qed.

Lemma index_keys_NoDup (new_key : string) (l : list value) (i : nat) :
  NoDup (map fst (map (fun iv => (index_key new_key (fst iv), snd iv))
                      (enumerate_from i l))).
Proof.
  rewrite map_map. cbn [fst].
  rewrite <- (map_map fst (index_key new_key)).
  rewrite enumerate_from_indices.
  apply Finite.Injective_map_NoDup; [|apply seq_NoDup].
  intros a b. apply index_key_inj.
Qed.

(** ** Properties of [flatten_dict] *)

(** C1 (as amended): a nested mapping stored under [k] is flattened by a
    recursive call whose [parent_key] is the path of [k]; whenever that
    path is not the empty string, every child of the mapping gets the
    path, the separator and its own key.  Flattening
    [{"A": {"B": 1, "C": 2}}] gives [{"A: B": 1, "A: C": 2}]. *)
Theorem flatten_dict_nested_mapping :
  forall (sep parent_key k : string) (sub before after : py_dict),
    make_key parent_key sep k <> "" ->
    flatten_dict (before ++ (k, VDict sub) :: after) parent_key sep
    = dict_of_items
        (loop_items sep parent_key before
         ++ flatten_dict sub (make_key parent_key sep k) sep
         ++ loop_items sep parent_key after)
    /\ flatten_dict sub (make_key parent_key sep k) sep
       = dict_of_items
           (flat_map
              (fun cv =>
                 value_items sep
                   (make_key parent_key sep k ++ sep ++ fst cv)%string
                   (snd cv))
              sub)
    /\ flatten [("A", VDict [("B", VInt 1); ("C", VInt 2)])]
       = [("A: B", VInt 1); ("A: C", VInt 2)].
Proof.
  intros sep parent_key k sub before after Hpath. repeat split.
  - rewrite flatten_dict_unfold, loop_items_app. reflexivity.
  - rewrite flatten_dict_unfold. unfold loop_items, entry_items.
    f_equal. apply flat_map_ext. intros [c v]. cbn [fst snd].
    now rewrite make_key_nested.
Qed.

Lemma flatten_dict_nested_mapping_witness :
  flatten_dict [("A", VDict [("B", VInt 1)])] "" ": "
  = dict_of_items (flatten_dict [("B", VInt 1)] "A" ": ").
Proof.
  assert (H : make_key "" ": " "A" <> "") by (cbn; discriminate).
  exact (proj1 (flatten_dict_nested_mapping ": " "" "A" [("B", VInt 1)]
                  [] [] H)).
Defined.

(** C1 as stated fails when the path of the nested mapping is the empty
    string: the child keeps its bare key, without the separator. *)
Lemma flatten_dict_nested_mapping_empty_path :
  flatten [("", VDict [("B", VInt 1)])] = [("B", VInt 1)]
  /\ flatten [("", VDict [("B", VInt 1)])]
     <> [(("" ++ ": " ++ "B")%string, VInt 1)]
  /\ ~ (forall (sep parent_key k : string) (sub : py_dict),
          flatten_dict sub (make_key parent_key sep k) sep
          = dict_of_items
              (flat_map
                 (fun cv =>
                    value_items sep
                      (make_key parent_key sep k ++ sep ++ fst cv)%string
                      (snd cv))
                 sub)).
Proof.
  split; [reflexivity|]. split; [discriminate|].
  intros H. specialize (H ": " "" "" [("B", VInt 1)]). discriminate H.
Qed.

(** C2: a list stored under [k] adds, element by element and in order,
    what [enumerate] numbers from 0: a mapping element is flattened by a
    recursive call under the path followed by [" [i]"], any other element
    is appended as the pair of that path and itself.  Flattening
    [{"A": [1, 2]}] gives [{"A [0]": 1, "A [1]": 2}]. *)
Theorem flatten_dict_list_entry :
  forall (sep parent_key k : string) (l : list value)
         (before after : py_dict),
    flatten_dict (before ++ (k, VList l) :: after) parent_key sep
    = dict_of_items
        (loop_items sep parent_key before
         ++ flat_map
              (fun iv =>
                 element_items sep (make_key parent_key sep k)
                               (fst iv) (snd iv))
              (enumerate l)
         ++ loop_items sep parent_key after)
    /\ (forall i : nat,
          nth_error (enumerate l) i = option_map (pair i) (nth_error l i))
    /\ (forall (i : nat) (item : value),
          element_items sep (make_key parent_key sep k) i item
          = match item with
            | VDict d' =>
                flatten_dict d'
                  (make_key parent_key sep k ++ " [" ++ str_of_nat i ++ "]")
                  sep
            | _ =>
                [((make_key parent_key sep k ++ " [" ++ str_of_nat i ++ "]")
                    %string, item)]
            end)
    /\ (forallb (fun x => negb (is_dict x)) l = true ->
        flatten_dict [(k, VList l)] parent_key sep
        = map (fun iv =>
                 ((make_key parent_key sep k
                   ++ " [" ++ str_of_nat (fst iv) ++ "]")%string, snd iv))
              (enumerate l))
    /\ flatten [("A", VList [VInt 1; VInt 2])]
       = [("A [0]", VInt 1); ("A [1]", VInt 2)].
Proof.
  intros sep parent_key k l before after. repeat apply conj.
  - rewrite flatten_dict_unfold, loop_items_app. reflexivity.
  - intros i. unfold enumerate. now rewrite enumerate_from_nth.
  - intros i item. destruct item; reflexivity.
  - intros Hleaves. rewrite flatten_dict_unfold.
    unfold loop_items, entry_items, value_items, enumerate.
    cbn [flat_map fst snd]. rewrite app_nil_r.
    rewrite (list_items_leaves _ _ _ _ Hleaves).
    apply dict_of_items_NoDup, index_keys_NoDup.
  - reflexivity.
Qed.

Lemma flatten_dict_list_entry_witness :
  flatten_dict [("A", VList [VInt 1; VInt 2])] "" ": "
  = map (fun iv =>
           ((make_key "" ": " "A" ++ " [" ++ str_of_nat (fst iv) ++ "]")
              %string, snd iv))
        (enumerate [VInt 1; VInt 2]).
Proof.
  assert (H : forallb (fun x => negb (is_dict x)) [VInt 1; VInt 2] = true)
    by reflexivity.
  exact (proj1 (proj2 (proj2 (proj2
           (flatten_dict_list_entry ": " "" "A" [VInt 1; VInt 2] [] []))))
           H).
Defined.

(** C3: on a dict whose values are neither mappings nor sequences,
    [flatten_dict] returns the dict itself: the same pairs in the same
    order, every path being the original key. *)
Theorem flatten_dict_flat_identity :
  forall d : py_dict,
    keys_unique (map fst d) = true ->
    forallb is_scalar (map snd d) = true ->
    flatten d = d /\ map fst (flatten d) = map fst d.
Proof.
  intros d Hkeys Hflat.
  assert (H : flatten d = d).
  { unfold flatten. rewrite flatten_dict_unfold.
    rewrite (loop_items_flat _ _ Hflat).
    apply dict_of_items_NoDup, keys_unique_NoDup, Hkeys. }
  split; [exact H | now rewrite H].
Qed.

Lemma flatten_dict_flat_identity_witness :
  flatten [("System", VStr "Linux"); ("Total cores", VInt 8);
           ("Processor", VNone)]
  = [("System", VStr "Linux"); ("Total cores", VInt 8);
     ("Processor", VNone)].
Proof.
  apply flatten_dict_flat_identity; reflexivity.
Defined.

(** C10: the pairs collected by [flatten_dict] go through [dict(items)];
    the dict [{"A": {"B": 1}, "A: B": 2}] has two scalar leaves whose
    paths are both ["A: B"], and its flattening keeps one pair only, with
    the value of the later leaf. *)
Theorem flatten_dict_path_collision :
  exists d : py_dict,
    d = [("A", VDict [("B", VInt 1)]); ("A: B", VInt 2)]
    /\ well_formed (VDict d) = true
    /\ count_leaves (VDict d) = 2%nat
    /\ loop_items default_sep "" d = [("A: B", VInt 1); ("A: B", VInt 2)]
    /\ flatten d = [("A: B", VInt 2)]
    /\ (List.length (flatten d) < count_leaves (VDict d))%nat.
Proof.
  eexists. split; [reflexivity|]. repeat split. cbn. lia.
Qed.

(** ** Properties of the collector *)

Section CollectorFacts.

Variable truediv : Z -> Z -> float.
Variable round : float -> Z -> float.

Lemma read_partition_appends (h : host) (p : sdiskpart) (disk_data : list value) :
  read_partition truediv round h p disk_data
  = Ok (disk_data ++ [partition_record truediv round h p]).
Proof.
  unfold read_partition, partition_record, try_except, bind, ret.
  now destruct (psutil_disk_usage h (mountpoint p)).
Qed.

(** The loop never leaves through an exception. *)
Lemma read_partitions_all (h : host) (partitions : list sdiskpart)
  (disk_data : list value) :
  read_partitions truediv round h partitions disk_data
  = (disk_data ++ map (partition_record truediv round h) partitions, None).
Proof.
  revert disk_data. induction partitions as [|p rest IH]; intros disk_data.
  - cbn [read_partitions map]. now rewrite app_nil_r.
  - cbn [read_partitions map]. rewrite read_partition_appends, IH.
    now rewrite <- app_assoc.
Qed.

Lemma get_disk_info_enumerated (h : host) (partitions : list sdiskpart) :
  psutil_disk_partitions h = Ok partitions ->
  get_disk_info truediv round h
  = Ok (map (partition_record truediv round h) partitions).
Proof.
  intros H. unfold get_disk_info. rewrite H, read_partitions_all. reflexivity.
Qed.

Lemma get_disk_info_not_enumerated (h : host) (e : exn) :
  psutil_disk_partitions h = Raise e ->
  get_disk_info truediv round h
  = Ok [VDict [("Error", VStr ("Failed to get disk info: " ++ e))]].
Proof. intros H. unfold get_disk_info. now rewrite H. Qed.

Lemma partition_records_are_dicts (h : host) (partitions : list sdiskpart) :
  exists records : list py_dict,
    map (partition_record truediv round h) partitions = map VDict records.
Proof.
  induction partitions as [|p rest [records IH]]; [now exists []|].
  cbn [map]. rewrite IH. unfold partition_record.
  destruct (psutil_disk_usage h (mountpoint p));
    eexists (_ :: records); reflexivity.
Qed.

Lemma get_disk_info_dicts (h : host) :
  exists records : list py_dict,
    get_disk_info truediv round h = Ok (map VDict records).
Proof.
  destruct (psutil_disk_partitions h) as [partitions|e] eqn:E.
  - destruct (partition_records_are_dicts h partitions) as [records H].
    exists records. now rewrite (get_disk_info_enumerated _ _ E), H.
  - eexists [_]. now rewrite (get_disk_info_not_enumerated _ _ E).
Qed.

Lemma get_gpu_info_dicts (h : host) :
  exists (gpu : py_dict) (gpus : list py_dict),
    get_gpu_info round h = Ok (map VDict (gpu :: gpus)).
Proof.
  unfold get_gpu_info.
  destruct (HAS_GPU h); cbn [negb]; [|now eexists _, []].
  destruct (GPUtil_getGPUs h) as [[|g gs]|e]; cbn [try_except bind ret].
  - now eexists _, [].
  - cbn [map]. unfold gpu_record at 1. eexists _, (map _ gs).
    f_equal. f_equal. rewrite map_map. reflexivity.
  - now eexists _, [].
Qed.

Lemma get_os_info_total (h : host) : exists d, get_os_info h = Ok d.
Proof.
  unfold get_os_info, try_except, bind, ret.
  destruct (platform_system h), (platform_node h), (platform_release h),
    (platform_version h), (platform_machine h), (platform_processor h);
    eexists; reflexivity.
Qed.

Lemma get_cpu_info_total (h : host) : exists d, get_cpu_info h = Ok d.
Proof.
  unfold get_cpu_info, try_except, bind, ret.
  destruct (psutil_cpu_freq h), (psutil_cpu_count h false),
    (psutil_cpu_count h true), (psutil_cpu_percent_percpu h),
    (psutil_cpu_percent h); eexists; reflexivity.
Qed.

Lemma get_memory_info_total (h : host) :
  exists d, get_memory_info truediv round h = Ok d.
Proof.
  unfold get_memory_info, try_except, bind, ret.
  destruct (psutil_virtual_memory h); eexists; reflexivity.
Qed.

Lemma get_os_info_failed (h : host) (e : exn) :
  first_raised (os_calls h) = Some e ->
  get_os_info h = Ok [("Error", VStr ("Failed to get OS info: " ++ e))].
Proof.
  unfold os_calls, get_os_info, try_except, bind, ret.
  destruct (platform_system h), (platform_node h), (platform_release h),
    (platform_version h), (platform_machine h), (platform_processor h);
    cbn [first_raised raised]; intros [= <-] || intros [=]; reflexivity.
Qed.

Lemma get_cpu_info_failed (h : host) (e : exn) :
  first_raised (cpu_calls h) = Some e ->
  get_cpu_info h = Ok [("Error", VStr ("Failed to get CPU info: " ++ e))].
Proof.
  unfold cpu_calls, get_cpu_info, try_except, bind, ret.
  destruct (psutil_cpu_freq h), (psutil_cpu_count h false),
    (psutil_cpu_count h true), (psutil_cpu_percent_percpu h),
    (psutil_cpu_percent h);
    cbn [first_raised raised]; intros [= <-] || intros [=]; reflexivity.
Qed.

Lemma collect_all_info_report (h : host) :
  exists report : py_dict,
    collect_all_info truediv round h = Ok report
    /\ map fst report
       = ["Timestamp"; "Version"; "OS Info"; "CPU Info"; "Memory Info";
          "Disk Info"; "GPU Info"]
    /\ SystemReport report.
Proof.
  destruct (get_os_info_total h) as [os_info Hos].
  destruct (get_cpu_info_total h) as [cpu_info Hcpu].
  destruct (get_memory_info_total h) as [memory_info Hmem].
  destruct (get_disk_info_dicts h) as [disks Hdisk].
  destruct (get_gpu_info_dicts h) as [gpu [gpus Hgpu]].
  unfold collect_all_info. rewrite Hos, Hcpu, Hmem, Hdisk, Hgpu.
  cbn [bind ret]. eexists. split; [reflexivity|]. split; [reflexivity|].
  now exists (now_isoformat h), __version__, os_info, cpu_info, memory_info,
    disks, gpu, gpus.
Qed.

End CollectorFacts.

(** C5: without the GPU library [get_gpu_info] returns the one-element
    list [[{"Info": "GPUtil package not installed"}]]; with the library
    and no device, [[{"Info": "No GPUs detected"}]]; when the query
    raises, [[{"Error": "Failed to get GPU info: <cause>"}]]. *)
Theorem get_gpu_info_placeholders :
  forall (round : float -> Z -> float) (h : host),
    (HAS_GPU h = false ->
     get_gpu_info round h
     = Ok [VDict [("Info", VStr "GPUtil package not installed")]])
    /\ (HAS_GPU h = true -> GPUtil_getGPUs h = Ok [] ->
        get_gpu_info round h = Ok [VDict [("Info", VStr "No GPUs detected")]])
    /\ (forall e : exn,
          HAS_GPU h = true -> GPUtil_getGPUs h = Raise e ->
          get_gpu_info round h
          = Ok [VDict [("Error", VStr ("Failed to get GPU info: " ++ e))]]).
Proof.
  intros round h. unfold get_gpu_info. repeat apply conj.
  - now intros ->.
  - now intros -> ->.
  - now intros e -> ->.
Qed.

Lemma get_gpu_info_placeholders_witness :
  get_gpu_info py_round (failing_host "down" false (Ok []))
  = Ok [VDict [("Info", VStr "GPUtil package not installed")]]
  /\ get_gpu_info py_round (failing_host "down" true (Ok []))
     = Ok [VDict [("Info", VStr "No GPUs detected")]]
  /\ get_gpu_info py_round (failing_host "down" true (Raise "NVML"))
     = Ok [VDict [("Error", VStr "Failed to get GPU info: NVML")]].
Proof.
  repeat apply conj.
  - apply (get_gpu_info_placeholders py_round
             (failing_host "down" false (Ok []))).
    reflexivity.
  - apply (get_gpu_info_placeholders py_round
             (failing_host "down" true (Ok []))); reflexivity.
  - apply (proj2 (proj2 (get_gpu_info_placeholders py_round
             (failing_host "down" true (Raise "NVML")))) "NVML");
      reflexivity.
Defined.

(** C6: when the partitions are enumerated, [get_disk_info] returns one
    record per partition, in order, and the record of a partition depends
    on the answer to its own usage query only: a partition whose usage
    cannot be read gets [{Device, Error: "Failed to read partition:
    <cause>"}] and the records of the others are what they would be
    anyway.  When the enumeration raises, the result is the single record
    [{Error: "Failed to get disk info: <cause>"}]. *)
Theorem get_disk_info_failure_isolation :
  forall (truediv : Z -> Z -> float) (round : float -> Z -> float) (h : host),
    (forall partitions : list sdiskpart,
       psutil_disk_partitions h = Ok partitions ->
       get_disk_info truediv round h
       = Ok (map (partition_record truediv round h) partitions))
    /\ (forall (p : sdiskpart) (e : exn),
          psutil_disk_usage h (mountpoint p) = Raise e ->
          partition_record truediv round h p
          = VDict [("Device", VStr (device p));
                   ("Error", VStr ("Failed to read partition: " ++ e))])
    /\ (forall (h' : host) (p : sdiskpart),
          psutil_disk_usage h' (mountpoint p)
          = psutil_disk_usage h (mountpoint p) ->
          partition_record truediv round h' p
          = partition_record truediv round h p)
    /\ (forall e : exn,
          psutil_disk_partitions h = Raise e ->
          get_disk_info truediv round h
          = Ok [VDict [("Error", VStr ("Failed to get disk info: " ++ e))]]).
Proof.
  intros truediv round h. repeat apply conj.
  - apply get_disk_info_enumerated.
  - intros p e H. unfold partition_record. now rewrite H.
  - intros h' p H. unfold partition_record. now rewrite H.
  - apply get_disk_info_not_enumerated.
Qed.

Lemma get_disk_info_failure_isolation_witness :
  get_disk_info py_truediv py_round two_disks_host
  = Ok [VDict [("Device", VStr "/dev/sr0");
               ("Error",
                 VStr "Failed to read partition: [Errno 123] No medium found")];
        partition_record py_truediv py_round two_disks_host
          {| device := "/dev/sda1"; mountpoint := "/"; fstype := "ext4" |}]
  /\ get_disk_info py_truediv py_round
       (failing_host "denied" false (Ok []))
     = Ok [VDict [("Error", VStr "Failed to get disk info: denied")]].
Proof.
  split.
  - exact (proj1 (get_disk_info_failure_isolation
                    py_truediv py_round two_disks_host)
             _ eq_refl).
  - apply (get_disk_info_failure_isolation py_truediv py_round
             (failing_host "denied" false (Ok []))).
    reflexivity.
Defined.

(** C7: every getter returns, whatever the queries answer; when one of
    its queries raises, the getter returns its error record, made from
    the first exception raised; and [collect_all_info] returns a record
    with the seven keys [Timestamp], [Version] and the five fact
    groups. *)
Theorem getters_total :
  forall (truediv : Z -> Z -> float) (round : float -> Z -> float) (h : host),
    ((exists d, get_os_info h = Ok d)
     /\ (exists d, get_cpu_info h = Ok d)
     /\ (exists d, get_memory_info truediv round h = Ok d)
     /\ (exists l, get_disk_info truediv round h = Ok l)
     /\ (exists l, get_gpu_info round h = Ok l))
    /\ ((forall e : exn,
           first_raised (os_calls h) = Some e ->
           get_os_info h
           = Ok [("Error", VStr ("Failed to get OS info: " ++ e))])
        /\ (forall e : exn,
              first_raised (cpu_calls h) = Some e ->
              get_cpu_info h
              = Ok [("Error", VStr ("Failed to get CPU info: " ++ e))])
        /\ (forall e : exn,
              psutil_virtual_memory h = Raise e ->
              get_memory_info truediv round h
              = Ok [("Error", VStr ("Failed to get memory info: " ++ e))])
        /\ (forall e : exn,
              psutil_disk_partitions h = Raise e ->
              get_disk_info truediv round h
              = Ok [VDict [("Error",
                             VStr ("Failed to get disk info: " ++ e))]])
        /\ (forall e : exn,
              HAS_GPU h = true -> GPUtil_getGPUs h = Raise e ->
              get_gpu_info round h
              = Ok [VDict [("Error",
                             VStr ("Failed to get GPU info: " ++ e))]]))
    /\ (exists report : py_dict,
          collect_all_info truediv round h = Ok report
          /\ map fst report
             = ["Timestamp"; "Version"; "OS Info"; "CPU Info";
                "Memory Info"; "Disk Info"; "GPU Info"]
          /\ SystemReport report).
Proof.
  intros truediv round h. repeat apply conj.
  - apply get_os_info_total.
  - apply get_cpu_info_total.
  - apply get_memory_info_total.
  - destruct (get_disk_info_dicts truediv round h) as [records H].
    now exists (map VDict records).
  - destruct (get_gpu_info_dicts round h) as [gpu [gpus H]].
    now exists (map VDict (gpu :: gpus)).
  - apply get_os_info_failed.
  - apply get_cpu_info_failed.
  - intros e H. unfold get_memory_info. now rewrite H.
  - apply get_disk_info_not_enumerated.
  - intros e Hgpu H. unfold get_gpu_info. now rewrite Hgpu, H.
  - apply collect_all_info_report.
Qed.

Lemma getters_total_witness :
  get_os_info (failing_host "down" true (Raise "down"))
  = Ok [("Error", VStr "Failed to get OS info: down")]
  /\ get_cpu_info (failing_host "down" true (Raise "down"))
     = Ok [("Error", VStr "Failed to get CPU info: down")]
  /\ get_memory_info py_truediv py_round
       (failing_host "down" true (Raise "down"))
     = Ok [("Error", VStr "Failed to get memory info: down")]
  /\ get_disk_info py_truediv py_round
       (failing_host "down" true (Raise "down"))
     = Ok [VDict [("Error", VStr "Failed to get disk info: down")]]
  /\ get_gpu_info py_round (failing_host "down" true (Raise "down"))
     = Ok [VDict [("Error", VStr "Failed to get GPU info: down")]].
Proof.
  pose proof (proj1 (proj2 (getters_total py_truediv py_round
                (failing_host "down" true (Raise "down")))))
    as (Hos & Hcpu & Hmem & Hdisk & Hgpu).
  repeat apply conj.
  - apply (Hos "down"). reflexivity.
  - apply (Hcpu "down"). reflexivity.
  - apply (Hmem "down"). reflexivity.
  - apply (Hdisk "down"). reflexivity.
  - apply (Hgpu "down"); reflexivity.
Defined.

(** ** Properties of the reporter *)

Lemma shown_get (record : py_dict) (field : string) :
  dict_get record field NA = shown record field.
Proof. reflexivity. Qed.

Lemma print_human_readable_report (data : py_dict) (w : world) :
  SystemReport data ->
  print_human_readable data w
  = (Ok tt, {| stdout := stdout w ++ spec_text data;
               files := files w;
               pending := pending w |}).
Proof.
  intros (timestamp & version & os_info & cpu_info & memory_info & disks
          & gpu & gpus & ->).
  unfold print_human_readable, print_human_readable_on, spec_text, group,
    first_gpu.
  cbn [dict_get dict_lookup String.eqb Ascii.eqb Bool.eqb map py_first
       py_get py_contains lift io_bind print_on accepting stdout files pending].
  rewrite !shown_get.
  destruct (dict_mem gpu "Name"); [|destruct (dict_mem gpu "ID")];
    cbn [orb io_ret io_bind print_on accepting lift py_get stdout files
         pending];
    rewrite ?shown_get; unfold print_on, accepting;
    cbn [stdout files pending];
    repeat rewrite <- app_assoc; reflexivity.
Qed.

(** Outside the shape of a report the text renderer can raise: an empty
    GPU list has no first record. *)
Lemma print_human_readable_empty_gpu_list :
  fst (print_human_readable [("GPU Info", VList [])] (fresh []))
  = Raise "list index out of range".
Proof. reflexivity. Qed.

Lemma file_lookup_store (fs : list (string * file_content)) (name : string)
  (c : file_content) :
  file_lookup (file_store fs name c) name = Some c.
Proof.
  induction fs as [|[n c'] rest IH]; cbn [file_store file_lookup].
  - now rewrite String.eqb_refl.
  - destruct (String.eqb n name) eqn:E; cbn [file_lookup]; now rewrite E.
Qed.

Lemma file_operation_no_fault (w : world) :
  no_fault w = true ->
  exists w' : world,
    file_operation w = (Ok tt, w')
    /\ stdout w' = stdout w /\ files w' = files w /\ no_fault w' = true.
Proof.
  unfold no_fault, file_operation. destruct w as [out fs [|[e|] rest]];
    cbn [pending stdout files forallb]; intros H.
  - eexists; repeat apply conj; try reflexivity; exact H.
  - discriminate H.
  - eexists; repeat apply conj; try reflexivity; exact H.
Qed.

Lemma writerow_no_fault (filename : string) (row : list value) (w : world) :
  no_fault w = true ->
  exists w' : world,
    writerow filename row w = (Ok tt, w')
    /\ stdout w' = stdout w
    /\ file_lookup (files w') filename
       = Some (CsvRows (written_rows (files w) filename ++ [row]))
    /\ no_fault w' = true.
Proof.
  intros H. destruct (file_operation_no_fault w H) as (w1 & Hop & Hout & Hfs & Hq).
  unfold writerow, file_write. rewrite Hop. unfold set_file.
  eexists. split; [reflexivity|]. cbn [stdout files pending].
  rewrite Hfs, file_lookup_store. repeat split; assumption.
Qed.

Lemma for_each_writerow_no_fault (filename : string)
  (cells : string * value -> list value) (items : list (string * value)) :
  forall (w : world) (rows : list (list value)),
    no_fault w = true ->
    file_lookup (files w) filename = Some (CsvRows rows) ->
    exists w' : world,
      for_each items (fun kv => writerow filename (cells kv)) w = (Ok tt, w')
      /\ stdout w' = stdout w
      /\ file_lookup (files w') filename
         = Some (CsvRows (rows ++ map cells items))
      /\ no_fault w' = true.
Proof.
  induction items as [|kv rest IH]; intros w rows Hq Hfile.
  - exists w. cbn [for_each map]. rewrite app_nil_r. now repeat split.
  - destruct (writerow_no_fault filename (cells kv) w Hq)
      as (w1 & Hrow & Hout1 & Hfile1 & Hq1).
    unfold written_rows in Hfile1. rewrite Hfile in Hfile1.
    destruct (IH w1 _ Hq1 Hfile1) as (w2 & Hrest & Hout2 & Hfile2 & Hq2).
    exists w2. cbn [for_each map]. unfold io_bind at 1. rewrite Hrow, Hrest.
    rewrite <- app_assoc in Hfile2. repeat split; try assumption.
    congruence.
Qed.

(** When no file operation fails, [save_to_csv] leaves the header and one
    row per flattened pair in the file. *)
Lemma save_to_csv_no_fault (data : py_dict) (filename : string) (w : world) :
  no_fault w = true ->
  exists w' : world,
    save_to_csv data filename w = (Ok tt, w')
    /\ file_lookup (files w') filename
       = Some (CsvRows ([VStr "Property"; VStr "Value"]
                        :: map (fun kv => [VStr (fst kv); snd kv])
                               (flatten data))).
Proof.
  intros Hq.
  destruct (file_operation_no_fault w Hq) as (w1 & Hopen & _ & _ & Hq1).
  set (w2 := {| stdout := stdout w1;
                files := file_store (files w1) filename EmptyFile;
                pending := pending w1 |}).
  assert (Hq2 : no_fault w2 = true) by exact Hq1.
  destruct (writerow_no_fault filename [VStr "Property"; VStr "Value"] w2 Hq2)
    as (w3 & Hhead & _ & Hfile3 & Hq3).
  assert (Hrows2 : written_rows (files w2) filename = []).
  { unfold written_rows, w2. cbn [files]. now rewrite file_lookup_store. }
  rewrite Hrows2 in Hfile3. cbn [app] in Hfile3.
  destruct (for_each_writerow_no_fault filename
              (fun kv => [VStr (fst kv); snd kv]) (flatten data) w3 _ Hq3 Hfile3)
    as (w4 & Hloop & _ & Hfile4 & Hq4).
  destruct (file_operation_no_fault w4 Hq4) as (w5 & Hclose & _ & Hfs5 & _).
  eexists. split.
  - unfold save_to_csv, save_to_csv_on, io_try_except, with_open, open_w,
      close.
    unfold io_bind at 1 2 3. rewrite Hopen. unfold set_file at 1. fold w2.
    unfold io_bind at 1. rewrite Hhead, Hloop.
    unfold io_bind at 1. rewrite Hclose. reflexivity.
  - cbn [files]. now rewrite Hfs5.
Qed.

Lemma failed_report_shape : SystemReport failed_report.
Proof.
  exists "2024-01-01T00:00:00", "1.0.0",
    [("Error", VStr "Failed to get OS info: down")],
    [("Error", VStr "Failed to get CPU info: down")],
    [("Error", VStr "Failed to get memory info: down")],
    [[("Error", VStr "Failed to get disk info: down")]],
    [("Info", VStr "GPUtil package not installed")], [].
  reflexivity.
Defined.

(** The decimal chosen by [round] is a nearest one: it is at most half a
    unit away from the quotient. *)
Lemma round_half_even_nearest (num den : Z) :
  (0 < den)%Z ->
  (Z.abs (2 * (round_half_even num den * den - num)) <= den)%Z.
Proof.
  intros Hden. unfold round_half_even.
  pose proof (Z.div_mod num den) as Hdiv.
  pose proof (Z.mod_pos_bound num den Hden) as Hmod.
  set (q := (num / den)%Z) in *. set (r := (num mod den)%Z) in *.
  assert (Hnum : num = (den * q + r)%Z) by (apply Hdiv; lia).
  destruct (Z.ltb_spec (2 * r) den); [nia|].
  destruct (Z.ltb_spec den (2 * r)); [nia|].
  destruct (Z.even q); nia.
Qed.

(** C8: when the memory query succeeds, [get_memory_info] returns the
    total, the available and the used memory, each as
    [round(bytes / 1073741824, 2)] with 1073741824 = 1024 ** 3, and the
    usage percentage as the query gives it. *)
Theorem get_memory_info_gigabytes :
  forall (truediv : Z -> Z -> float) (round : float -> Z -> float)
         (h : host) (m : svmem),
    psutil_virtual_memory h = Ok m ->
    get_memory_info truediv round h
    = Ok [("Total (GB)", VFloat (round (truediv (vm_total m) 1073741824%Z) 2%Z));
          ("Available (GB)",
            VFloat (round (truediv (vm_available m) 1073741824%Z) 2%Z));
          ("Used (GB)", VFloat (round (truediv (vm_used m) 1073741824%Z) 2%Z));
          ("Percentage (%)", VFloat (vm_percent m))].
Proof.
  intros truediv round h m H. unfold get_memory_info. rewrite H. reflexivity.
Qed.

(** On the example host: 16234567890 bytes are 15.12 GB, 8589934592
    bytes 8.0 GB and 7644633298 bytes 7.12 GB. *)
Lemma get_memory_info_gigabytes_witness :
  get_memory_info py_truediv py_round two_disks_host
  = Ok [("Total (GB)", VFloat 0x1.e3d70a3d70a3dp+3%float);
        ("Available (GB)", VFloat 8.0%float);
        ("Used (GB)", VFloat 0x1.c7ae147ae147bp+2%float);
        ("Percentage (%)", VFloat 47.5%float)].
Proof.
  exact (get_memory_info_gigabytes py_truediv py_round two_disks_host
           _ eq_refl).
Defined.

(** A tie goes to the even digit: 134217728 bytes are 0.125 GB exactly,
    shown as 0.12; 402653184 bytes are 0.375 GB, shown as 0.38. *)
Example gigabytes_ties :
  gigabytes py_truediv py_round 134217728 = VFloat 0x1.eb851eb851eb8p-4%float
  /\ gigabytes py_truediv py_round 402653184
     = VFloat 0x1.851eb851eb852p-2%float.
Proof. split; reflexivity. Qed.

(** C9: when no file operation fails, the file written by [save_to_csv]
    holds the header row [["Property", "Value"]] followed by one row of
    two cells per pair of the flattened report, in the order of the
    flattening: N + 1 rows for N pairs. *)
Theorem save_to_csv_rows :
  forall (data : py_dict) (filename : string) (w : world),
    no_fault w = true ->
    fst (save_to_csv data filename w) = Ok tt
    /\ file_lookup (files (snd (save_to_csv data filename w))) filename
       = Some (CsvRows ([VStr "Property"; VStr "Value"]
                        :: map (fun kv => [VStr (fst kv); snd kv])
                               (flatten data)))
    /\ List.length
         (written_rows (files (snd (save_to_csv data filename w))) filename)
       = S (List.length (flatten data))
    /\ Forall (fun row => List.length row = 2%nat)
         (written_rows (files (snd (save_to_csv data filename w))) filename).
Proof.
  intros data filename w Hq.
  destruct (save_to_csv_no_fault data filename w Hq) as (w' & Hrun & Hfile).
  rewrite Hrun. cbn [fst snd]. unfold written_rows. rewrite Hfile.
  repeat apply conj; try reflexivity.
  - cbn [List.length]. now rewrite length_map.
  - constructor; [reflexivity|]. apply Forall_map, Forall_forall.
    reflexivity.
Qed.

Lemma save_to_csv_rows_witness :
  file_lookup
    (files (snd (save_to_csv [("A", VList [VInt 1; VInt 2])] "out.csv"
                   (fresh [None; None]))))
    "out.csv"
  = Some (CsvRows [[VStr "Property"; VStr "Value"];
                   [VStr "A [0]"; VInt 1];
                   [VStr "A [1]"; VInt 2]]).
Proof.
  assert (H : no_fault (fresh [None; None]) = true) by reflexivity.
  exact (proj1 (proj2 (save_to_csv_rows [("A", VList [VInt 1; VInt 2])]
                         "out.csv" (fresh [None; None]) H))).
Defined.

(** ** Induction on nested values *)

Lemma value_nested_ind (P : value -> Prop) :
  P VNone ->
  (forall b, P (VBool b)) ->
  (forall n, P (VInt n)) ->
  (forall f, P (VFloat f)) ->
  (forall s, P (VStr s)) ->
  (forall l, Forall P l -> P (VList l)) ->
  (forall d, Forall (fun kv => P (snd kv)) d -> P (VDict d)) ->
  forall v, P v.
Proof.
  intros HNone HBool HInt HFloat HStr HList HDict.
  fix IH 1. intros [| b | n | f | s | l | d].
  - exact HNone.
  - apply HBool.
  - apply HInt.
  - apply HFloat.
  - apply HStr.
  - apply HList. induction l as [|x rest IHl]; constructor; [apply IH | exact IHl].
  - apply HDict. induction d as [|[k x] rest IHd]; constructor;
      [apply IH | exact IHd].
Qed.

Lemma list_sum_cons (n : nat) (l : list nat) :
  list_sum (n :: l) = (n + list_sum l)%nat.
Proof. reflexivity. Qed.

Lemma count_leaves_dict (d : py_dict) :
  count_leaves (VDict d) = list_sum (map (fun kv => value_leaves (snd kv)) d).
Proof.
  cbn [count_leaves]. induction d as [|[k v] rest IH]; [reflexivity|].
  cbn [map snd]. rewrite list_sum_cons, <- IH. f_equal.
  destruct v as [| | | | |l|d']; try reflexivity.
  cbn [value_leaves]. induction l as [|item more IHl]; [reflexivity|].
  cbn [map]. rewrite list_sum_cons, <- IHl. reflexivity.
Qed.

(** ** More on [dict(items)] *)

Lemma dict_set_length (d : py_dict) (k : string) (v : value) :
  (List.length (dict_set d k v) <= S (List.length d))%nat.
Proof.
  induction d as [|[k' v'] rest IH]; cbn [dict_set List.length]; [lia|].
  destruct (String.eqb k' k); cbn [List.length]; lia.
Qed.

Lemma dict_of_items_length (items : list (string * value)) :
  (List.length (dict_of_items items) <= List.length items)%nat.
Proof.
  unfold dict_of_items.
  assert (H : forall acc : py_dict,
            (List.length (fold_left
               (fun d kv => dict_set d (fst kv) (snd kv)) items acc)
             <= List.length acc + List.length items)%nat).
  { induction items as [|kv rest IH]; intros acc; cbn [fold_left List.length];
      [lia|].
    specialize (IH (dict_set acc (fst kv) (snd kv))).
    pose proof (dict_set_length acc (fst kv) (snd kv)). lia. }
  apply (H []).
Qed.

Lemma dict_set_In (d : py_dict) (k : string) (v : value) (kv : string * value) :
  In kv (dict_set d k v) -> In kv d \/ kv = (k, v).
Proof.
  induction d as [|[k' v'] rest IH]; cbn [dict_set].
  - intros [<-|[]]. now right.
  - destruct (String.eqb_spec k' k) as [->|Hne].
    + intros [<-|Hin]; [now right | left; now right].
    + intros [<-|Hin]; [left; now left|].
      destruct (IH Hin) as [H|H]; [left; now right | now right].
Qed.

(** Every pair of [dict(items)] is one of the items. *)
Lemma dict_of_items_In (items : list (string * value)) (kv : string * value) :
  In kv (dict_of_items items) -> In kv items.
Proof.
  unfold dict_of_items.
  assert (H : forall acc : py_dict,
            In kv (fold_left (fun d kv => dict_set d (fst kv) (snd kv))
                             items acc) ->
            In kv acc \/ In kv items).
  { induction items as [|[k v] rest IH]; intros acc; cbn [fold_left fst snd].
    - now left.
    - intros Hin. destruct (IH _ Hin) as [H|H]; [|right; now right].
      destruct (dict_set_In _ _ _ _ H) as [H' | ->]; [now left|].
      right. now left. }
  intros Hin. destruct (H [] Hin) as [[]|Hitems]. exact Hitems.
Qed.

Lemma dict_of_items_Forall (Q : string * value -> Prop)
  (items : list (string * value)) :
  Forall Q items -> Forall Q (dict_of_items items).
Proof.
  rewrite !Forall_forall. intros H kv Hin. apply H.
  now apply dict_of_items_In.
Qed.

Lemma dict_lookup_set_same (d : py_dict) (k : string) (v : value) :
  dict_lookup (dict_set d k v) k = Some v.
Proof.
  induction d as [|[k' v'] rest IH]; cbn [dict_set dict_lookup].
  - now rewrite String.eqb_refl.
  - destruct (String.eqb k' k) eqn:E; cbn [dict_lookup]; now rewrite E.
Qed.

Lemma dict_lookup_set_other (d : py_dict) (k k0 : string) (v : value) :
  k <> k0 -> dict_lookup (dict_set d k v) k0 = dict_lookup d k0.
Proof.
  intros Hne. induction d as [|[k' v'] rest IH]; cbn [dict_set dict_lookup].
  - destruct (String.eqb_spec k k0); [contradiction | reflexivity].
  - destruct (String.eqb_spec k' k) as [->|Hk]; cbn [dict_lookup].
    + destruct (String.eqb_spec k k0); [contradiction | reflexivity].
    + now rewrite IH.
Qed.

Lemma dict_lookup_app (d1 d2 : py_dict) (k : string) :
  dict_lookup (d1 ++ d2) k
  = match dict_lookup d1 k with
    | Some v => Some v
    | None => dict_lookup d2 k
    end.
Proof.
  induction d1 as [|[k' v'] rest IH]; [reflexivity|].
  cbn [app dict_lookup]. now destruct (String.eqb k' k).
Qed.

(** Looking a key up in [dict(items)] finds the last item with that key. *)
Lemma dict_of_items_lookup (items : list (string * value)) (k : string) :
  dict_lookup (dict_of_items items) k = dict_lookup (rev items) k.
Proof.
  unfold dict_of_items.
  assert (H : forall acc : py_dict,
            dict_lookup (fold_left (fun d kv => dict_set d (fst kv) (snd kv))
                                   items acc) k
            = match dict_lookup (rev items) k with
              | Some v => Some v
              | None => dict_lookup acc k
              end).
  { induction items as [|[k' v'] rest IH]; intros acc; [reflexivity|].
    cbn [fold_left fst snd rev]. rewrite IH, dict_lookup_app.
    destruct (dict_lookup (rev rest) k); [reflexivity|].
    cbn [dict_lookup]. destruct (String.eqb_spec k' k) as [->|Hne].
    - apply dict_lookup_set_same.
    - now apply dict_lookup_set_other. }
  rewrite H. now destruct (dict_lookup (rev items) k).
Qed.

(** ** What [flatten_dict] keeps of a nested value *)

Lemma value_items_dict (sep new_key : string) (d : py_dict) :
  value_items sep new_key (VDict d)
  = dict_of_items (flat_map (entry_items sep new_key) d).
Proof. cbn [value_items]. apply flatten_dict_unfold. Qed.

Lemma element_items_dict (sep new_key : string) (i : nat) (d : py_dict) :
  element_items sep new_key i (VDict d)
  = value_items sep (index_key new_key i) (VDict d).
Proof. reflexivity. Qed.

Lemma flat_map_length_le {A : Type} (f : A -> list (string * value))
  (g : A -> nat) (l : list A) :
  Forall (fun x => (List.length (f x) <= g x)%nat) l ->
  (List.length (flat_map f l) <= list_sum (map g l))%nat.
Proof.
  induction 1 as [|x rest Hx _ IH]; [cbn; lia|].
  cbn [flat_map map]. rewrite length_app, list_sum_cons. lia.
Qed.

Lemma value_items_length (v : value) :
  forall sep new_key : string,
    (List.length (value_items sep new_key v) <= value_leaves v)%nat.
Proof.
  induction v as [| b | n | f | s | l IH | d IH] using value_nested_ind;
    intros sep new_key; try (cbn; lia).
  - cbn [value_items value_leaves]. unfold enumerate. generalize 0%nat.
    induction IH as [|item more Hitem _ IHmore]; intros i; [cbn; lia|].
    cbn [enumerate_from flat_map map fst snd].
    rewrite length_app, list_sum_cons. specialize (IHmore (S i)).
    assert (List.length (element_items sep new_key i item)
            <= item_leaves item)%nat; [|lia].
    destruct item; try (cbn; lia).
    rewrite element_items_dict. apply Hitem.
  - rewrite value_items_dict.
    eapply Nat.le_trans; [apply dict_of_items_length|].
    cbn [value_leaves]. rewrite count_leaves_dict.
    apply flat_map_length_le.
    rewrite Forall_forall in *. intros kv Hin. apply IH, Hin.
Qed.

Lemma value_items_not_dicts (v : value) :
  forall sep new_key : string,
    Forall (fun kv => is_dict (snd kv) = false) (value_items sep new_key v).
Proof.
  induction v as [| b | n | f | s | l IH | d IH] using value_nested_ind;
    intros sep new_key; try (repeat constructor).
  - cbn [value_items]. unfold enumerate. generalize 0%nat.
    induction IH as [|item more Hitem _ IHmore]; intros i; [constructor|].
    cbn [enumerate_from flat_map fst snd]. apply Forall_app. split; [|apply IHmore].
    destruct item; try (repeat constructor).
    rewrite element_items_dict. apply Hitem.
  - rewrite value_items_dict. apply dict_of_items_Forall.
    apply Forall_flat_map. rewrite Forall_forall in *.
    intros kv Hin. apply IH, Hin.
Qed.

Lemma no_list_in_list_dict (d : py_dict) :
  no_list_in_list (VDict d) = forallb (fun kv => no_list_in_list (snd kv)) d.
Proof.
  cbn [no_list_in_list]. induction d as [|[k v] rest IH]; [reflexivity|].
  cbn [forallb snd]. now rewrite IH.
Qed.

Lemma no_list_in_list_list (l : list value) :
  no_list_in_list (VList l)
  = forallb (fun x => negb (is_list x) && no_list_in_list x) l.
Proof.
  cbn [no_list_in_list]. induction l as [|x rest IH]; [reflexivity|].
  cbn [forallb]. now rewrite IH.
Qed.

Lemma value_items_scalars (v : value) :
  no_list_in_list v = true ->
  forall sep new_key : string,
    Forall (fun kv => is_scalar (snd kv) = true) (value_items sep new_key v).
Proof.
  induction v as [| b | n | f | s | l IH | d IH] using value_nested_ind;
    intros Hv sep new_key; try (repeat constructor).
  - rewrite no_list_in_list_list in Hv.
    cbn [value_items]. unfold enumerate. generalize 0%nat.
    induction IH as [|item more Hitem _ IHmore]; intros i; [constructor|].
    cbn [forallb] in Hv. apply andb_prop in Hv. destruct Hv as [Hi Hmore].
    apply andb_prop in Hi. destruct Hi as [Hnl Hitem'].
    cbn [enumerate_from flat_map fst snd]. apply Forall_app.
    split; [|now apply IHmore].
    destruct item; try (repeat constructor); try discriminate Hnl.
    rewrite element_items_dict. now apply Hitem.
  - rewrite no_list_in_list_dict in Hv. rewrite forallb_forall in Hv.
    rewrite value_items_dict. apply dict_of_items_Forall.
    apply Forall_flat_map. rewrite Forall_forall in *.
    intros kv Hin. apply IH; [exact Hin | apply Hv, Hin].
Qed.

Lemma append_nil_r (s : string) : (s ++ "")%string = s.
Proof. induction s as [|c s IH]; cbn [append]; [reflexivity | now rewrite IH]. Qed.

Lemma append_assoc (a b c : string) :
  ((a ++ b) ++ c = a ++ (b ++ c))%string.
Proof. induction a as [|x a IH]; cbn [append]; [reflexivity | now rewrite IH]. Qed.

(** Every path collected below a value starts with the path of that
    value. *)
Lemma value_items_paths (v : value) :
  forall sep new_key : string,
    Forall (fun kv => exists rest, fst kv = (new_key ++ rest)%string)
           (value_items sep new_key v).
Proof.
  induction v as [| b | n | f | s | l IH | d IH] using value_nested_ind;
    intros sep new_key;
    try (repeat constructor; exists ""; cbn [fst]; now rewrite append_nil_r).
  - cbn [value_items]. unfold enumerate. generalize 0%nat.
    induction IH as [|item more Hitem _ IHmore]; intros i; [constructor|].
    cbn [enumerate_from flat_map fst snd]. apply Forall_app.
    split; [|apply IHmore].
    assert (Hleaf : Forall
              (fun kv => exists rest, fst kv = (new_key ++ rest)%string)
              [(index_key new_key i, item)]).
    { repeat constructor. cbn [fst]. unfold index_key. eauto. }
    destruct item; try exact Hleaf.
    rewrite element_items_dict.
    eapply Forall_impl; [|apply Hitem].
    intros kv [rest ->]. unfold index_key. rewrite !append_assoc. eauto.
  - rewrite value_items_dict. apply dict_of_items_Forall.
    apply Forall_flat_map. rewrite Forall_forall in *.
    intros kv Hin. unfold entry_items.
    eapply Forall_impl; [|apply (IH kv Hin)].
    intros kv' [rest ->]. unfold make_key.
    destruct new_key; [now exists (fst kv ++ rest)%string|].
    rewrite !append_assoc. eauto.
Qed.

Lemma forallb_Forall {A : Type} (f : A -> bool) (l : list A) :
  Forall (fun x => f x = true) l -> forallb f l = true.
Proof. intros H. apply forallb_forall. now apply Forall_forall. Qed.

Lemma NoDup_keys_unique (ks : list string) :
  NoDup ks -> keys_unique ks = true.
Proof.
  induction 1 as [|k rest Hk _ IH]; [reflexivity|].
  cbn [keys_unique]. rewrite IH, andb_true_r. apply negb_true_iff.
  destruct (existsb (String.eqb k) rest) eqn:E; [|reflexivity].
  apply existsb_exists in E. destruct E as (x & Hin & Heq).
  apply String.eqb_eq in Heq. subst x. contradiction.
Qed.

(** ** Further properties of [flatten_dict] *)

(** X1: flattening never yields more pairs than the nested value has
    leaves. *)
Theorem flatten_dict_at_most_leaves :
  forall (d : py_dict) (parent_key sep : string),
    (List.length (flatten_dict d parent_key sep) <= count_leaves (VDict d))%nat.
Proof.
  intros d parent_key sep.
  exact (value_items_length (VDict d) sep parent_key).
Qed.

(** X2: the result of [flatten_dict] is a dict without mappings: its keys
    are pairwise distinct and none of its values is a dict. *)
Theorem flatten_dict_result_shape :
  forall (d : py_dict) (parent_key sep : string),
    keys_unique (map fst (flatten_dict d parent_key sep)) = true
    /\ forallb (fun kv => negb (is_dict (snd kv)))
               (flatten_dict d parent_key sep) = true.
Proof.
  intros d parent_key sep. split.
  - apply NoDup_keys_unique, flatten_dict_keys_NoDup.
  - apply forallb_Forall.
    eapply Forall_impl; [|exact (value_items_not_dicts (VDict d) sep parent_key)].
    intros kv H. cbn beta. now rewrite H.
Qed.

(** X3: when no list is an element of a list, the values of the flattened
    dict are scalars and flattening it again changes nothing. *)
Theorem flatten_dict_idempotent :
  forall d : py_dict,
    no_list_in_list (VDict d) = true ->
    forallb is_scalar (map snd (flatten d)) = true
    /\ flatten (flatten d) = flatten d.
Proof.
  intros d Hd.
  assert (Hflat : forallb is_scalar (map snd (flatten d)) = true).
  { rewrite forallb_forall. intros v Hin. apply in_map_iff in Hin.
    destruct Hin as (kv & <- & Hin).
    pose proof (value_items_scalars (VDict d) Hd default_sep "") as H.
    rewrite Forall_forall in H. now apply H. }
  split; [exact Hflat|].
  unfold flatten at 1. rewrite flatten_dict_unfold.
  rewrite (loop_items_flat _ _ Hflat).
  apply dict_of_items_NoDup, flatten_dict_keys_NoDup.
Qed.

Lemma flatten_dict_idempotent_witness :
  flatten (flatten [("A", VDict [("B", VList [VInt 1; VDict [("C", VNone)]])])])
  = flatten [("A", VDict [("B", VList [VInt 1; VDict [("C", VNone)]])])].
Proof.
  apply flatten_dict_idempotent. reflexivity.
Defined.

(** X4: looking a path up in the flattened dict gives the value of the
    last pair collected under that path; a path that no pair carries is
    absent. *)
Theorem flatten_dict_last_pair_wins :
  forall (d : py_dict) (parent_key sep path : string),
    dict_lookup (flatten_dict d parent_key sep) path
    = dict_lookup (rev (loop_items sep parent_key d)) path.
Proof.
  intros d parent_key sep path.
  rewrite flatten_dict_unfold. apply dict_of_items_lookup.
Qed.

(** X5: every path of the flattened dict starts with the path of one of
    the keys of the dict. *)
Theorem flatten_dict_paths_start_with_keys :
  forall (d : py_dict) (parent_key sep : string) (kv : string * value),
    In kv (flatten_dict d parent_key sep) ->
    exists (k rest : string),
      In k (map fst d)
      /\ fst kv = (make_key parent_key sep k ++ rest)%string.
Proof.
  intros d parent_key sep kv Hin.
  rewrite flatten_dict_unfold in Hin. apply dict_of_items_In in Hin.
  unfold loop_items in Hin. apply in_flat_map in Hin.
  destruct Hin as ([k v] & Hentry & Hin). unfold entry_items in Hin.
  cbn [fst snd] in Hin.
  pose proof (value_items_paths v sep (make_key parent_key sep k)) as H.
  rewrite Forall_forall in H. destruct (H kv Hin) as [rest Hrest].
  exists k, rest. split; [|exact Hrest].
  apply in_map_iff. now exists (k, v).
Qed.

Lemma flatten_dict_paths_start_with_keys_witness :
  exists (k rest : string),
    In k ["OS Info"; "Disk Info"]
    /\ "Disk Info [0]: Device" = (make_key "" ": " k ++ rest)%string.
Proof.
  apply (flatten_dict_paths_start_with_keys
           [("OS Info", VDict [("System", VStr "Linux")]);
            ("Disk Info", VList [VDict [("Device", VStr "/dev/sda1")]])]
           "" ": " ("Disk Info [0]: Device", VStr "/dev/sda1")).
  cbn. right. now left.
Defined.

(** X6: an entry whose value is an empty dict or an empty list leaves no
    pair in the flattened dict. *)
Theorem flatten_dict_drops_empty_containers :
  forall (before after : py_dict) (k parent_key sep : string),
    flatten_dict (before ++ (k, VDict []) :: after) parent_key sep
    = flatten_dict (before ++ after) parent_key sep
    /\ flatten_dict (before ++ (k, VList []) :: after) parent_key sep
       = flatten_dict (before ++ after) parent_key sep.
Proof.
  intros before after k parent_key sep.
  rewrite !flatten_dict_unfold, !loop_items_app. split; reflexivity.
Qed.

(** ** Further properties of the collector *)

(** X7: [get_gpu_info] never returns an empty list, and its first element
    is a record: with the library and at least one device it returns one
    record per device, in order. *)
Theorem get_gpu_info_one_record_per_device :
  forall (round : float -> Z -> float) (h : host),
    (exists (first : py_dict) (rest : list value),
       get_gpu_info round h = Ok (VDict first :: rest))
    /\ (forall (gpu : GPU) (gpus : list GPU),
          HAS_GPU h = true -> GPUtil_getGPUs h = Ok (gpu :: gpus) ->
          get_gpu_info round h = Ok (map (gpu_record round) (gpu :: gpus))).
Proof.
  intros round h. split.
  - destruct (get_gpu_info_dicts round h) as (gpu & gpus & H).
    exists gpu, (map VDict gpus). exact H.
  - intros gpu gpus Hgpu H. unfold get_gpu_info. now rewrite Hgpu, H.
Qed.

Lemma get_gpu_info_one_record_per_device_witness :
  get_gpu_info py_round
    (failing_host "down" true
       (Ok [ {| gpu_id := 0; gpu_name := "GPU"; gpu_driver := "535.0";
                gpu_memoryTotal := 8192; gpu_memoryUsed := 1024;
                gpu_memoryFree := 7168; gpu_load := 0.25;
                gpu_temperature := 40 |} ]))
  = Ok [VDict [("ID", VInt 0); ("Name", VStr "GPU");
               ("Driver Version", VStr "535.0");
               ("Memory Total (MB)", VFloat 8192);
               ("Memory Used (MB)", VFloat 1024);
               ("Memory Free (MB)", VFloat 7168);
               ("Load (%)", VFloat 25);
               ("Temperature (°C)", VFloat 40)]].
Proof.
  exact (proj2 (get_gpu_info_one_record_per_device py_round
                  (failing_host "down" true (Ok [_]))) _ _ eq_refl eq_refl).
Defined.

(** X8: when the partitions are enumerated, the records of
    [get_disk_info] name the devices of the partitions, one by one and in
    order, whether the usage of a partition could be read or not. *)
Theorem get_disk_info_names_every_device :
  forall (truediv : Z -> Z -> float) (round : float -> Z -> float)
         (h : host) (partitions : list sdiskpart),
    psutil_disk_partitions h = Ok partitions ->
    exists records : list value,
      get_disk_info truediv round h = Ok records
      /\ map record_device records
         = map (fun p => Some (VStr (device p))) partitions.
Proof.
  intros truediv round h partitions H.
  exists (map (partition_record truediv round h) partitions).
  split; [now apply get_disk_info_enumerated|].
  rewrite map_map. apply map_ext. intros p. unfold partition_record.
  now destruct (psutil_disk_usage h (mountpoint p)).
Qed.

Lemma get_disk_info_names_every_device_witness :
  exists records : list value,
    get_disk_info py_truediv py_round two_disks_host = Ok records
    /\ map record_device records
       = [Some (VStr "/dev/sr0"); Some (VStr "/dev/sda1")].
Proof.
  exact (get_disk_info_names_every_device py_truediv py_round two_disks_host
           _ eq_refl).
Defined.

(** X9: [test_cpu_cores] passes exactly on the hosts on which no CPU query
    raises and the count of physical cores is a positive integer; it
    fails where [psutil.cpu_count(logical=False)] answers [None]. *)
Theorem test_cpu_cores_passes_iff :
  forall h : host,
    test_cpu_cores h = Ok tt
    <-> (first_raised (cpu_calls h) = None
         /\ exists n : Z, psutil_cpu_count h false = Ok (Some n) /\ (0 < n)%Z).
Proof.
  intros h. unfold test_cpu_cores, get_cpu_info, cpu_calls, try_except, bind, ret.
  destruct (psutil_cpu_freq h) as [freq|e1];
    [|cbn; split; [discriminate | intros [[=] _]]].
  destruct (psutil_cpu_count h false) as [physical|e2];
    [|cbn; split; [discriminate | intros [[=] _]]].
  destruct (psutil_cpu_count h true) as [total|e3];
    [|cbn; split; [discriminate | intros [[=] _]]].
  destruct (psutil_cpu_percent_percpu h) as [per_core|e4];
    [|cbn; split; [discriminate | intros [[=] _]]].
  destruct (psutil_cpu_percent h) as [usage|e5];
    [|cbn; split; [discriminate | intros [[=] _]]].
  cbn. destruct physical as [n|]; cbn.
  - destruct (Z.ltb_spec 0 n).
    + split; [intros _; split; [reflexivity | now exists n] | reflexivity].
    + split; [discriminate|]. intros [_ (n' & [= <-] & Hn)]. lia.
  - split; [discriminate|]. intros [_ (n' & [=] & _)].
Qed.

Lemma test_cpu_cores_passes_iff_witness :
  test_cpu_cores two_disks_host = Ok tt
  /\ test_cpu_cores (failing_host "down" false (Ok [])) <> Ok tt.
Proof.
  split.
  - apply (proj2 (test_cpu_cores_passes_iff two_disks_host)).
    split; [reflexivity|]. exists 4%Z. split; [reflexivity | lia].
  - intros H.
    apply (proj1 (test_cpu_cores_passes_iff
                    (failing_host "down" false (Ok [])))) in H.
    destruct H as [H _]. discriminate H.
Defined.

(** ** The collector and the text renderer together *)

Lemma Ok_inj {A : Type} (a b : A) : Ok a = Ok b -> a = b.
Proof. now intros [= ->]. Qed.

Lemma first_raised_os_ok (h : host) :
  first_raised (os_calls h) = None ->
  exists system node release version machine processor,
    platform_system h = Ok system /\ platform_node h = Ok node
    /\ platform_release h = Ok release /\ platform_version h = Ok version
    /\ platform_machine h = Ok machine /\ platform_processor h = Ok processor.
Proof.
  unfold os_calls.
  destruct (platform_system h); [|discriminate].
  destruct (platform_node h); [|discriminate].
  destruct (platform_release h); [|discriminate].
  destruct (platform_version h); [|discriminate].
  destruct (platform_machine h); [|discriminate].
  destruct (platform_processor h); [|discriminate].
  intros _. repeat eexists.
Qed.

Lemma first_raised_cpu_ok (h : host) :
  first_raised (cpu_calls h) = None ->
  exists freq physical total per_core usage,
    psutil_cpu_freq h = Ok freq /\ psutil_cpu_count h false = Ok physical
    /\ psutil_cpu_count h true = Ok total
    /\ psutil_cpu_percent_percpu h = Ok per_core
    /\ psutil_cpu_percent h = Ok usage.
Proof.
  unfold cpu_calls.
  destruct (psutil_cpu_freq h); [|discriminate].
  destruct (psutil_cpu_count h false); [|discriminate].
  destruct (psutil_cpu_count h true); [|discriminate].
  destruct (psutil_cpu_percent_percpu h); [|discriminate].
  destruct (psutil_cpu_percent h); [|discriminate].
  intros _. repeat eexists.
Qed.

(** X10: on a host where no OS, CPU or memory query raises, every field
    that the text renderer reads is a key of the collected records: what
    it shows is the answer of the query, never the fallback of a missing
    key. *)
Theorem text_fields_are_collected_keys :
  forall (truediv : Z -> Z -> float) (round : float -> Z -> float)
         (h : host) (report : py_dict),
    collect_all_info truediv round h = Ok report ->
    first_raised (os_calls h) = None ->
    first_raised (cpu_calls h) = None ->
    raised (psutil_virtual_memory h) = None ->
    (Ok (shown (group report "OS Info") "System")
     = answer VStr (platform_system h)
     /\ Ok (shown (group report "OS Info") "Version")
        = answer VStr (platform_version h)
     /\ Ok (shown (group report "OS Info") "Machine")
        = answer VStr (platform_machine h))
    /\ (Ok (shown (group report "CPU Info") "Physical cores")
        = answer of_optional_int (psutil_cpu_count h false)
        /\ Ok (shown (group report "CPU Info") "Total cores")
           = answer of_optional_int (psutil_cpu_count h true)
        /\ Ok (shown (group report "CPU Info") "Current Frequency (MHz)")
           = answer (fun freq => match freq with
                                 | Some f => VFloat (freq_current f)
                                 | None => VStr "N/A"
                                 end)
                    (psutil_cpu_freq h)
        /\ Ok (shown (group report "CPU Info") "Total CPU Usage (%)")
           = answer VFloat (psutil_cpu_percent h))
    /\ (Ok (shown (group report "Memory Info") "Total (GB)")
        = answer (fun m => gigabytes truediv round (vm_total m))
                 (psutil_virtual_memory h)
        /\ Ok (shown (group report "Memory Info") "Used (GB)")
           = answer (fun m => gigabytes truediv round (vm_used m))
                    (psutil_virtual_memory h)
        /\ Ok (shown (group report "Memory Info") "Percentage (%)")
           = answer (fun m => VFloat (vm_percent m))
                    (psutil_virtual_memory h)).
Proof.
  intros truediv round h report Hreport Hos Hcpu Hmem.
  destruct (first_raised_os_ok h Hos)
    as (system & node & release & version & machine & processor
        & E1 & E2 & E3 & E4 & E5 & E6).
  destruct (first_raised_cpu_ok h Hcpu)
    as (freq & physical & total & per_core & usage
        & C1 & C2 & C3 & C4 & C5).
  destruct (psutil_virtual_memory h) as [m|e] eqn:M; [|discriminate Hmem].
  destruct (get_disk_info_dicts truediv round h) as [disks Hdisk].
  destruct (get_gpu_info_dicts round h) as (gpu & gpus & Hgpu).
  unfold collect_all_info, get_os_info, get_cpu_info, get_memory_info
    in Hreport.
  rewrite E1, E2, E3, E4, E5, E6, C1, C2, C3, C4, C5, M, Hdisk, Hgpu
    in Hreport.
  cbn [try_except bind ret] in Hreport. injection Hreport as <-.
  rewrite E1, E4, E5, C1, C2, C3, C5.
  repeat apply conj; reflexivity.
Qed.

Lemma text_fields_are_collected_keys_witness :
  exists report : py_dict,
    collect_all_info py_truediv py_round two_disks_host = Ok report
    /\ shown (group report "OS Info") "Machine" = VStr "x86_64"
    /\ shown (group report "CPU Info") "Physical cores" = VInt 4
    /\ shown (group report "CPU Info") "Current Frequency (MHz)" = VStr "N/A"
    /\ shown (group report "Memory Info") "Used (GB)"
       = VFloat 0x1.c7ae147ae147bp+2%float.
Proof.
  eexists. split; [reflexivity|].
  pose proof (text_fields_are_collected_keys py_truediv py_round
                two_disks_host _ eq_refl eq_refl eq_refl eq_refl)
    as ((_ & _ & Hmachine) & (Hcores & _ & Hfreq & _) & (_ & Hused & _)).
  repeat apply conj.
  - exact (Ok_inj _ _ Hmachine).
  - exact (Ok_inj _ _ Hcores).
  - exact (Ok_inj _ _ Hfreq).
  - exact (Ok_inj _ _ Hused).
Defined.

(** X11: for a collected report the text renderer prints the fifteen
    lines of the header and the OS, CPU and memory sections, and then the
    GPU section of the first device exactly when the GPU library is there
    and reports at least one device; the placeholder and error records
    print no GPU section. *)
Theorem text_gpu_section_iff_device :
  forall (truediv : Z -> Z -> float) (round : float -> Z -> float)
         (h : host) (report : py_dict) (w : world),
    collect_all_info truediv round h = Ok report ->
    print_human_readable report w
    = (Ok tt, {| stdout := stdout w ++ firstn 15 (spec_text report)
                           ++ gpu_section round h;
                 files := files w;
                 pending := pending w |}).
Proof.
  intros truediv round h report w Hreport.
  destruct (collect_all_info_report truediv round h)
    as (report' & Hreport' & _ & Hshape).
  rewrite Hreport in Hreport'. injection Hreport' as <-.
  rewrite (print_human_readable_report report w Hshape).
  do 2 f_equal. f_equal.
  destruct (get_os_info_total h) as [os_info Hos].
  destruct (get_cpu_info_total h) as [cpu_info Hcpu].
  destruct (get_memory_info_total truediv round h) as [memory_info Hmem].
  destruct (get_disk_info_dicts truediv round h) as [disks Hdisk].
  unfold collect_all_info in Hreport.
  rewrite Hos, Hcpu, Hmem, Hdisk in Hreport. cbn [bind ret] in Hreport.
  unfold gpu_section, get_gpu_info in *.
  destruct (HAS_GPU h); cbn [negb bind ret] in Hreport.
  - destruct (GPUtil_getGPUs h) as [[|gpu gpus]|e];
      cbn [try_except bind ret map] in Hreport;
      injection Hreport as <-; reflexivity.
  - injection Hreport as <-. reflexivity.
Qed.

Lemma text_gpu_section_iff_device_witness :
  stdout (snd (print_human_readable
                 failed_report (fresh [])))
  = firstn 15 (spec_text failed_report).
Proof.
  assert (H : collect_all_info py_truediv py_round
                (failing_host "down" false (Ok []))
              = Ok failed_report) by reflexivity.
  rewrite (text_gpu_section_iff_device py_truediv py_round _ _ (fresh []) H).
  reflexivity.
Defined.

(** ** Frames of the savers *)

Lemma file_lookup_store_other (fs : list (string * file_content))
  (name other : string) (c : file_content) :
  other <> name ->
  file_lookup (file_store fs name c) other = file_lookup fs other.
Proof.
  intros Hne. induction fs as [|[n c'] rest IH]; cbn [file_store file_lookup].
  - destruct (String.eqb_spec name other); [congruence | reflexivity].
  - destruct (String.eqb_spec n name) as [->|Hn]; cbn [file_lookup].
    + destruct (String.eqb_spec name other); [congruence | reflexivity].
    + now rewrite IH.
Qed.

Lemma only_touches_refl (name : string) (w : world) : only_touches name w w.
Proof. now split. Qed.

Lemma only_touches_trans (name : string) (w1 w2 w3 : world) :
  only_touches name w1 w2 -> only_touches name w2 w3 ->
  only_touches name w1 w3.
Proof.
  intros [Hout1 Hfs1] [Hout2 Hfs2]. split; [congruence|].
  intros other Hne. now rewrite Hfs2, Hfs1.
Qed.

Lemma io_bind_frame {A B : Type} (name : string) (m : io A) (k : A -> io B) :
  (forall w, only_touches name w (snd (m w))) ->
  (forall a w, only_touches name w (snd (k a w))) ->
  forall w, only_touches name w (snd (io_bind m k w)).
Proof.
  intros Hm Hk w. unfold io_bind. specialize (Hm w).
  destruct (m w) as [[a|e] w1]; cbn [snd] in *; [|exact Hm].
  eapply only_touches_trans; [exact Hm | apply Hk].
Qed.

Lemma file_operation_frame (name : string) (w : world) :
  only_touches name w (snd (file_operation w)).
Proof.
  unfold file_operation. destruct w as [out fs [|[e|] rest]];
    cbn [pending stdout files snd]; now split.
Qed.

Lemma set_file_frame (name : string) (c : file_content) (w : world) :
  only_touches name w (snd (set_file name c w)).
Proof.
  split; [reflexivity|]. intros other Hne. cbn [set_file snd files].
  now apply file_lookup_store_other.
Qed.

Lemma file_write_frame (name : string)
  (content : list (string * file_content) -> file_content) (w : world) :
  only_touches name w (snd (file_write name content w)).
Proof.
  unfold file_write. pose proof (file_operation_frame name w) as H.
  destruct (file_operation w) as [[[]|e] w1]; cbn [snd] in H;
    (eapply only_touches_trans; [exact H | apply set_file_frame]).
Qed.

Lemma close_frame (name : string) (w : world) :
  only_touches name w (snd (close name w)).
Proof.
  unfold close. pose proof (file_operation_frame name w) as H.
  destruct (file_operation w) as [[[]|e] w1]; cbn [snd] in H; [exact H|].
  eapply only_touches_trans; [exact H | apply set_file_frame].
Qed.

Lemma writerow_frame (name : string) (row : list value) (w : world) :
  only_touches name w (snd (writerow name row w)).
Proof. apply file_write_frame. Qed.

Lemma for_each_frame {A : Type} (name : string) (l : list A)
  (body : A -> io unit) :
  (forall x w, only_touches name w (snd (body x w))) ->
  forall w, only_touches name w (snd (for_each l body w)).
Proof.
  intros Hbody. induction l as [|x rest IH]; cbn [for_each].
  - intros w. apply only_touches_refl.
  - apply io_bind_frame; [apply Hbody | intros _; exact IH].
Qed.

Lemma with_open_frame {A : Type} (name : string) (body : io A) :
  (forall w, only_touches name w (snd (body w))) ->
  forall w, only_touches name w (snd (with_open name body w)).
Proof.
  intros Hbody. unfold with_open, open_w. apply io_bind_frame.
  - apply io_bind_frame; [apply file_operation_frame|].
    intros _ w. apply set_file_frame.
  - intros _ w. specialize (Hbody w).
    destruct (body w) as [[a|e] w1]; cbn [snd] in Hbody;
      (eapply only_touches_trans; [exact Hbody|]);
      (apply io_bind_frame; [apply close_frame|]);
      intros _ w2; apply only_touches_refl.
Qed.

Lemma csv_body_frame (data : py_dict) (filename : string) (w : world) :
  only_touches filename w
    (snd (with_open filename
            (io_bind (writerow filename [VStr "Property"; VStr "Value"])
               (fun _ => for_each (flatten data)
                  (fun kv => writerow filename [VStr (fst kv); snd kv])))
            w)).
Proof.
  apply with_open_frame. apply io_bind_frame.
  - apply writerow_frame.
  - intros _. apply for_each_frame. intros kv. apply writerow_frame.
Qed.

Lemma json_body_frame (data : py_dict) (filename : string) (w : world) :
  only_touches filename w
    (snd (with_open filename (json_dump (VDict data) filename 4) w)).
Proof.
  apply with_open_frame. intros w'. apply file_write_frame.
Qed.

(** What a saver built from a framed body does: it returns, prints one
    notice and keeps the frame. *)
Lemma saver_one_notice (filename : string) (body : io unit)
  (failure : exn -> line) (w : world) :
  only_touches filename w (snd (body w)) ->
  let run := io_try_except
               (io_bind body (fun _ => print (saved_notice filename)))
               (fun e => print (failure e)) w in
  fst run = Ok tt
  /\ (exists notice : line,
        stdout (snd run) = stdout w ++ [notice]
        /\ (notice = saved_notice filename
            \/ exists e : exn, notice = failure e))
  /\ (forall other : string,
        other <> filename ->
        file_lookup (files (snd run)) other = file_lookup (files w) other).
Proof.
  intros Hbody. unfold io_try_except, io_bind.
  destruct (body w) as [[[]|e] w1];
    cbn [snd fst print print_on accepting stdout files] in *;
    destruct Hbody as [Hout Hfs]; rewrite Hout.
  - split; [reflexivity|]. split; [|exact Hfs].
    exists (saved_notice filename). split; [reflexivity | now left].
  - split; [reflexivity|]. split; [|exact Hfs].
    exists (failure e). split; [reflexivity | right; now exists e].
Qed.

(** ** Further properties of the savers *)

(** X13: when the file cannot be opened, a saver writes nothing: the
    files are as they were and the failure notice carries the cause. *)
Theorem savers_open_failure :
  forall (data : py_dict) (filename : string) (w : world)
         (e : exn) (rest : list (option exn)),
    pending w = Some e :: rest ->
    save_to_csv data filename w
    = (Ok tt, {| stdout := stdout w ++ [csv_failure_notice e];
                 files := files w;
                 pending := rest |})
    /\ save_to_json data filename w
       = (Ok tt, {| stdout := stdout w ++ [json_failure_notice e];
                    files := files w;
                    pending := rest |}).
Proof.
  intros data filename [out fs pend] e rest H. cbn [pending] in H. subst pend.
  split; reflexivity.
Qed.

Lemma savers_open_failure_witness :
  save_to_json failed_report "system_specs.json"
    (fresh [Some "[Errno 13] Permission denied"])
  = (Ok tt, {| stdout := [json_failure_notice "[Errno 13] Permission denied"];
               files := [];
               pending := [] |}).
Proof.
  exact (proj2 (savers_open_failure failed_report "system_specs.json"
                  (fresh [Some "[Errno 13] Permission denied"]) _ _ eq_refl)).
Defined.

Lemma save_to_json_no_fault (data : py_dict) (filename : string) (w : world) :
  no_fault w = true ->
  file_lookup (files (snd (save_to_json data filename w))) filename
  = Some (JsonDocument 4 (VDict data))
  /\ stdout (snd (save_to_json data filename w))
     = stdout w ++ [saved_notice filename].
Proof.
  intros Hq.
  destruct (file_operation_no_fault w Hq) as (w1 & Hopen & Hout1 & _ & Hq1).
  set (w2 := {| stdout := stdout w1;
                files := file_store (files w1) filename EmptyFile;
                pending := pending w1 |}).
  assert (Hq2 : no_fault w2 = true) by exact Hq1.
  destruct (file_operation_no_fault w2 Hq2) as (w3 & Hdump & Hout3 & _ & Hq3).
  set (w4 := {| stdout := stdout w3;
                files := file_store (files w3) filename
                           (JsonDocument 4 (VDict data));
                pending := pending w3 |}).
  assert (Hq4 : no_fault w4 = true) by exact Hq3.
  destruct (file_operation_no_fault w4 Hq4) as (w5 & Hclose & Hout5 & Hfs5 & _).
  assert (Hrun : save_to_json data filename w
                 = (Ok tt, {| stdout := stdout w5 ++ [saved_notice filename];
                              files := files w5;
                              pending := pending w5 |})).
  { unfold save_to_json, save_to_json_on, io_try_except, with_open, open_w,
      close, json_dump, file_write.
    unfold io_bind at 1 2 3. rewrite Hopen. unfold set_file at 1. fold w2.
    rewrite Hdump. unfold set_file at 1. fold w4.
    unfold io_bind at 1. rewrite Hclose. reflexivity. }
  rewrite Hrun. cbn [snd files stdout]. split.
  - rewrite Hfs5. unfold w4. cbn [files]. apply file_lookup_store.
  - rewrite Hout5. unfold w4. cbn [stdout]. rewrite Hout3. unfold w2.
    cbn [stdout]. now rewrite Hout1.
Qed.


(** X14: when no file operation fails, [save_to_json] leaves the whole
    nested report, not flattened, as a document indented by 4, and prints
    the success notice. *)
Theorem save_to_json_document :
  forall (data : py_dict) (filename : string) (w : world),
    no_fault w = true ->
    file_lookup (files (snd (save_to_json data filename w))) filename
    = Some (JsonDocument 4 (VDict data))
    /\ stdout (snd (save_to_json data filename w))
       = stdout w ++ [saved_notice filename].
Proof.
  intros data filename w Hq.
  destruct (save_to_json_no_fault data filename w Hq) as [Hfile Hout].
  split; [exact Hfile | exact Hout].
Qed.

Lemma save_to_json_document_witness :
  file_lookup
    (files (snd (save_to_json failed_report "system_specs.json" (fresh []))))
    "system_specs.json"
  = Some (JsonDocument 4 (VDict failed_report)).
Proof.
  assert (H : no_fault (fresh []) = true) by reflexivity.
  exact (proj1 (save_to_json_document failed_report "system_specs.json"
                  (fresh []) H)).
Defined.

(** ** Properties of [main] *)

Lemma main_runs (truediv : Z -> Z -> float) (round : float -> Z -> float)
  (args : arguments) (h : host) (w : world) :
  exists report : py_dict,
    collect_all_info truediv round h = Ok report
    /\ SystemReport report
    /\ main truediv round args h w
       = (if String.eqb (format args) "csv" then
            save_to_csv report (output args ++ ".csv")
          else if String.eqb (format args) "json" then
            save_to_json report (output args ++ ".json")
          else print_human_readable report) w.
Proof.
  destruct (collect_all_info_report truediv round h)
    as (report & Hreport & _ & Hshape).
  exists report. split; [exact Hreport|]. split; [exact Hshape|].
  unfold main, main_on, io_bind, lift. now rewrite Hreport.
Qed.

(** X17: with any format other than [csv] and [json], the default [text]
    among them, [main] prints the text of the collected report, touches
    no file and uses no file operation. *)
Theorem main_text_mode :
  forall (truediv : Z -> Z -> float) (round : float -> Z -> float)
         (args : arguments) (h : host) (w : world),
    format args <> "csv" ->
    format args <> "json" ->
    exists report : py_dict,
      collect_all_info truediv round h = Ok report
      /\ main truediv round args h w
         = (Ok tt, {| stdout := stdout w ++ spec_text report;
                      files := files w;
                      pending := pending w |}).
Proof.
  intros truediv round args h w Hcsv Hjson.
  destruct (main_runs truediv round args h w)
    as (report & Hreport & Hshape & ->).
  exists report. split; [exact Hreport|].
  apply String.eqb_neq in Hcsv, Hjson. rewrite Hcsv, Hjson.
  now apply print_human_readable_report.
Qed.

Lemma main_text_mode_witness :
  main py_truediv py_round default_arguments
    (failing_host "down" false (Ok []))
    {| stdout := []; files := [("system_specs.csv", EmptyFile)];
       pending := [Some "unused"] |}
  = (Ok tt, {| stdout := spec_text failed_report;
               files := [("system_specs.csv", EmptyFile)];
               pending := [Some "unused"] |}).
Proof.
  destruct (main_text_mode py_truediv py_round default_arguments
              (failing_host "down" false (Ok []))
              {| stdout := []; files := [("system_specs.csv", EmptyFile)];
                 pending := [Some "unused"] |})
    as (report & Hreport & Hrun); [discriminate | discriminate |].
  rewrite Hrun. injection Hreport as <-. reflexivity.
Defined.

(** X18: with the format [csv] (resp. [json]), [main] prints one notice
    and leaves every file but [<output>.csv] (resp. [<output>.json]) as
    it was; when no file operation fails, that file holds the header and
    the flattened rows of the collected report (resp. the nested report
    as a document indented by 4). *)
Theorem main_file_modes :
  forall (truediv : Z -> Z -> float) (round : float -> Z -> float)
         (args : arguments) (h : host) (w : world),
    format args = "csv" \/ format args = "json" ->
    exists (report : py_dict) (notice : line),
      collect_all_info truediv round h = Ok report
      /\ stdout (snd (main truediv round args h w)) = stdout w ++ [notice]
      /\ (forall other : string,
            other <> (output args ++ "." ++ format args)%string ->
            file_lookup (files (snd (main truediv round args h w))) other
            = file_lookup (files w) other)
      /\ (no_fault w = true ->
          file_lookup (files (snd (main truediv round args h w)))
            (output args ++ "." ++ format args)%string
          = Some (if String.eqb (format args) "csv"
                  then CsvRows (csv_rows report)
                  else JsonDocument 4 (VDict report))).
Proof.
  intros truediv round args h w Hformat.
  destruct (main_runs truediv round args h w)
    as (report & Hreport & _ & ->).
  destruct Hformat as [-> | ->]; cbn [String.eqb Ascii.eqb Bool.eqb andb].
  - destruct (saver_one_notice (output args ++ ".csv") _ csv_failure_notice w
                (csv_body_frame report (output args ++ ".csv") w))
      as (_ & (notice & Hout & _) & Hframe).
    exists report, notice. repeat apply conj.
    + exact Hreport.
    + exact Hout.
    + exact Hframe.
    + intros Hq.
      destruct (save_to_csv_no_fault report (output args ++ ".csv") w Hq)
        as (w' & Hrun & Hfile).
      rewrite Hrun. exact Hfile.
  - destruct (saver_one_notice (output args ++ ".json") _ json_failure_notice w
                (json_body_frame report (output args ++ ".json") w))
      as (_ & (notice & Hout & _) & Hframe).
    exists report, notice. repeat apply conj.
    + exact Hreport.
    + exact Hout.
    + exact Hframe.
    + intros Hq.
      exact (proj1 (save_to_json_no_fault report (output args ++ ".json")
                      w Hq)).
Qed.

Lemma main_file_modes_witness :
  file_lookup
    (files (snd (main py_truediv py_round
                   {| format := "json"; output := "specs" |}
                   (failing_host "down" false (Ok [])) (fresh []))))
    "specs.json"
  = Some (JsonDocument 4 (VDict failed_report)).
Proof.
  destruct (main_file_modes py_truediv py_round
              {| format := "json"; output := "specs" |}
              (failing_host "down" false (Ok [])) (fresh []))
    as (report & notice & Hreport & _ & _ & Hfile); [now right|].
  injection Hreport as <-. exact (Hfile eq_refl).
Defined.

(** ** Flattening without collisions *)

Lemma count_leaves_flat (r : py_dict) :
  forallb is_scalar (map snd r) = true ->
  count_leaves (VDict r) = List.length r.
Proof.
  intros H. rewrite count_leaves_dict.
  induction r as [|[k v] rest IH]; [reflexivity|].
  cbn [map snd forallb] in H. apply andb_prop in H. destruct H as [Hv Hrest].
  cbn [map snd List.length]. rewrite list_sum_cons, (IH Hrest).
  destruct v; try discriminate Hv; reflexivity.
Qed.

Lemma under_keys_NoDup (path sep : string) (r : py_dict) :
  NoDup (map fst r) -> NoDup (map fst (map (under path sep) r)).
Proof.
  intros H. rewrite map_map. cbn [under fst].
  rewrite <- (map_map fst (fun k => (path ++ sep ++ k)%string)).
  apply Finite.Injective_map_NoDup; [|exact H].
  intros a b Hab. apply append_inv_head in Hab.
  now apply append_inv_head in Hab.
Qed.

(** A flat record under a path that is not empty: every field gets the
    path, the separator and its key. *)
Lemma flatten_dict_flat_record (r : py_dict) (path sep : string) :
  flat_record r = true -> path <> "" ->
  flatten_dict r path sep = map (under path sep) r.
Proof.
  unfold flat_record. intros H Hpath. apply andb_prop in H.
  destruct H as [Hflat Hkeys].
  rewrite flatten_dict_unfold.
  assert (Hloop : loop_items sep path r = map (under path sep) r).
  { clear Hkeys. induction r as [|[k v] rest IH]; [reflexivity|].
    cbn [map snd forallb] in Hflat. apply andb_prop in Hflat.
    destruct Hflat as [Hv Hrest].
    unfold loop_items in *. cbn [flat_map map]. rewrite (IH Hrest).
    unfold entry_items, under. cbn [fst snd].
    rewrite (make_key_nested _ _ _ Hpath).
    destruct v; try discriminate Hv; reflexivity. }
  rewrite Hloop. apply dict_of_items_NoDup, under_keys_NoDup.
  now apply keys_unique_NoDup.
Qed.

Lemma index_key_not_empty (new_key : string) (i : nat) :
  index_key new_key i <> "".
Proof.
  unfold index_key. destruct new_key; cbn [append]; discriminate.
Qed.

(** The digits of an index hold no bracket. *)
Lemma string_of_uint_no_bracket (d : Decimal.uint) :
  no_bracket (DecimalString.NilEmpty.string_of_uint d) = true.
Proof. induction d; cbn; auto. Qed.

Lemma str_of_nat_no_bracket (i : nat) : no_bracket (str_of_nat i) = true.
Proof.
  unfold str_of_nat, DecimalString.NilZero.string_of_uint.
  destruct (Nat.to_uint i); try apply string_of_uint_no_bracket.
  reflexivity.
Qed.

Lemma bracket_splits (a b x y : string) :
  no_bracket a = true -> no_bracket b = true ->
  (a ++ String "]" x = b ++ String "]" y)%string -> a = b.
Proof.
  revert b. induction a as [|c a IH]; intros [|c' b] Ha Hb H;
    cbn [append no_bracket] in *.
  - reflexivity.
  - injection H as Hc _. subst c'. discriminate Hb.
  - injection H as Hc _. subst c. discriminate Ha.
  - injection H as -> H. apply andb_prop in Ha, Hb.
    f_equal. now apply (IH b).
Qed.

(** The paths below two elements of a list differ when the indices do. *)
Lemma index_key_separates (new_key : string) (i j : nat) (x y : string) :
  (index_key new_key i ++ x = index_key new_key j ++ y)%string -> i = j.
Proof.
  unfold index_key. rewrite !append_assoc. intros H.
  apply append_inv_head in H. apply (append_inv_head " [") in H.
  change ("]" ++ x)%string with (String "]" x) in H.
  change ("]" ++ y)%string with (String "]" y) in H.
  apply str_of_nat_inj.
  eapply bracket_splits; [apply str_of_nat_no_bracket ..| exact H].
Qed.

Lemma list_of_flat_records (sep new_key : string) (rs : list py_dict) :
  forallb flat_record rs = true ->
  forall i : nat,
    flat_map (fun iv => element_items sep new_key (fst iv) (snd iv))
             (enumerate_from i (map VDict rs))
    = records_items sep new_key i rs.
Proof.
  induction rs as [|r rest IH]; intros H i; [reflexivity|].
  cbn [forallb] in H. apply andb_prop in H. destruct H as [Hr Hrest].
  cbn [map enumerate_from flat_map fst snd records_items].
  rewrite (IH Hrest). f_equal. cbn [element_items].
  apply flatten_dict_flat_record; [exact Hr | apply index_key_not_empty].
Qed.

Lemma records_items_length (sep new_key : string) (rs : list py_dict) :
  forall i : nat,
    List.length (records_items sep new_key i rs)
    = list_sum (map (@List.length (string * value)) rs).
Proof.
  induction rs as [|r rest IH]; intros i; [reflexivity|].
  cbn [records_items map]. rewrite length_app, length_map, list_sum_cons.
  now rewrite IH.
Qed.

Lemma records_items_keys (sep new_key : string) (rs : list py_dict) :
  forall (i : nat) (key : string),
    In key (map fst (records_items sep new_key i rs)) ->
    exists (j : nat) (x : string),
      (i <= j)%nat /\ key = (index_key new_key j ++ x)%string.
Proof.
  induction rs as [|r rest IH]; intros i key Hin; [destruct Hin|].
  cbn [records_items] in Hin. rewrite map_app in Hin.
  apply in_app_or in Hin. destruct Hin as [Hin|Hin].
  - rewrite map_map in Hin. apply in_map_iff in Hin.
    destruct Hin as (kv & <- & _). cbn [under fst]. eauto.
  - destruct (IH _ _ Hin) as (j & x & Hj & ->).
    exists j, x. split; [lia | reflexivity].
Qed.

Lemma records_items_NoDup (sep new_key : string) (rs : list py_dict) :
  forallb flat_record rs = true ->
  forall i : nat, NoDup (map fst (records_items sep new_key i rs)).
Proof.
  induction rs as [|r rest IH]; intros H i; [constructor|].
  cbn [forallb] in H. apply andb_prop in H. destruct H as [Hr Hrest].
  cbn [records_items]. rewrite map_app. apply NoDup_app.
  - apply under_keys_NoDup. unfold flat_record in Hr.
    apply andb_prop in Hr. now apply keys_unique_NoDup.
  - now apply IH.
  - intros key Hhere Hthere. rewrite map_map in Hhere.
    apply in_map_iff in Hhere. destruct Hhere as (kv & <- & _).
    destruct (records_items_keys _ _ _ _ _ Hthere) as (j & x & Hj & Heq).
    cbn [under fst] in Heq. apply index_key_separates in Heq. lia.
Qed.

Lemma records_leaves (rs : list py_dict) :
  forallb flat_record rs = true ->
  list_sum (map item_leaves (map VDict rs))
  = list_sum (map (@List.length (string * value)) rs).
Proof.
  induction rs as [|r rest IH]; intros H; [reflexivity|].
  cbn [forallb] in H. apply andb_prop in H. destruct H as [Hr Hrest].
  cbn [map]. rewrite !list_sum_cons, (IH Hrest). f_equal.
  unfold flat_record in Hr. apply andb_prop in Hr.
  cbn [item_leaves]. now apply count_leaves_flat.
Qed.

(** Lists of keys that start with pairwise different characters have no
    key in common. *)
Lemma NoDup_by_head (chunks : list (ascii * list string)) :
  NoDup (map fst chunks) ->
  Forall (fun chunk =>
            NoDup (snd chunk)
            /\ Forall (fun k => head_char k = Some (fst chunk)) (snd chunk))
         chunks ->
  NoDup (List.concat (map snd chunks)).
Proof.
  induction chunks as [|[c ks] rest IH]; intros Hheads Hchunks; [constructor|].
  cbn [map fst snd List.concat] in *. inversion Hheads as [|? ? Hc Hrest]; subst.
  inversion Hchunks as [|? ? [Hks Hhead] Hothers]; subst. cbn [fst snd] in *.
  apply NoDup_app; [exact Hks | now apply IH |].
  intros key Hhere Hthere. apply in_concat in Hthere.
  destruct Hthere as (ks' & Hks' & Hkey). apply in_map_iff in Hks'.
  destruct Hks' as ([c' ks''] & <- & Hchunk). cbn [snd] in Hkey.
  rewrite Forall_forall in Hhead, Hothers.
  specialize (Hhead key Hhere).
  destruct (Hothers _ Hchunk) as [_ Hhead']. cbn [fst snd] in Hhead'.
  rewrite Forall_forall in Hhead'. specialize (Hhead' key Hkey).
  assert (c = c') by congruence. subst c'.
  apply Hc. apply in_map_iff. now exists (c, ks'').
Qed.

Lemma under_heads (c : ascii) (path sep : string) (r : py_dict) :
  Forall (fun k => head_char k = Some c)
         (map fst (map (under (String c path) sep) r)).
Proof.
  rewrite map_map. apply Forall_map, Forall_forall. reflexivity.
Qed.

Lemma records_items_heads (c : ascii) (path sep : string) (rs : list py_dict) :
  forall i : nat,
    Forall (fun k => head_char k = Some c)
           (map fst (records_items sep (String c path) i rs)).
Proof.
  induction rs as [|r rest IH]; intros i; [constructor|].
  cbn [records_items]. rewrite map_app. apply Forall_app. split; [|apply IH].
  rewrite map_map. apply Forall_map, Forall_forall. reflexivity.
Qed.

Lemma flatten_dict_heads (c : ascii) (path sep : string) (d : py_dict) :
  Forall (fun k => head_char k = Some c)
         (map fst (flatten_dict d (String c path) sep)).
Proof.
  apply Forall_map.
  eapply Forall_impl; [|exact (value_items_paths (VDict d) sep (String c path))].
  intros kv [rest ->]. reflexivity.
Qed.

Lemma value_items_scalar (sep new_key : string) (v : value) :
  is_scalar v = true -> value_items sep new_key v = [(new_key, v)].
Proof. destruct v; try discriminate; reflexivity. Qed.

Lemma value_leaves_scalar (v : value) :
  is_scalar v = true -> value_leaves v = 1%nat.
Proof. destruct v; try discriminate; reflexivity. Qed.

Lemma float_items (sep new_key : string) (fs : list float) :
  value_items sep new_key (VList (map VFloat fs))
  = map (fun iv => (index_key new_key (fst iv), snd iv))
        (enumerate_from 0 (map VFloat fs)).
Proof.
  cbn [value_items]. unfold enumerate. apply list_items_leaves.
  induction fs as [|f rest IH]; [reflexivity | exact IH].
Qed.

Lemma float_leaves (fs : list float) :
  value_leaves (VList (map VFloat fs)) = List.length fs.
Proof.
  cbn [value_leaves]. induction fs as [|f rest IH]; [reflexivity|].
  cbn [map]. rewrite list_sum_cons, IH. reflexivity.
Qed.

Lemma enumerate_from_length (l : list value) (i : nat) :
  List.length (enumerate_from i l) = List.length l.
Proof.
  revert i. induction l as [|x rest IH]; intros i; [reflexivity|].
  cbn [enumerate_from List.length]. now rewrite IH.
Qed.

(** The record of a successful [get_cpu_info] loses no leaf when it is
    flattened under ["CPU Info"]. *)
Lemma cpu_record_lossless (v1 v2 v3 v4 v5 : value) (per_core : list float)
  (usage : float) :
  is_scalar v1 = true -> is_scalar v2 = true -> is_scalar v3 = true ->
  is_scalar v4 = true -> is_scalar v5 = true ->
  let cpu := [("Physical cores", v1); ("Total cores", v2);
              ("Max Frequency (MHz)", v3); ("Min Frequency (MHz)", v4);
              ("Current Frequency (MHz)", v5);
              ("CPU Usage per Core (%)", VList (map VFloat per_core));
              ("Total CPU Usage (%)", VFloat usage)] in
  List.length (flatten_dict cpu "CPU Info" ": ") = count_leaves (VDict cpu).
Proof.
  intros H1 H2 H3 H4 H5 cpu. subst cpu.
  rewrite count_leaves_dict. cbn [map snd]. rewrite !list_sum_cons.
  rewrite !value_leaves_scalar by (assumption || reflexivity).
  rewrite float_leaves.
  rewrite flatten_dict_unfold. unfold loop_items, entry_items.
  cbn [flat_map fst snd].
  rewrite !value_items_scalar by (assumption || reflexivity).
  rewrite float_items, app_nil_r.
  cbn [value_items make_key append app].
  set (scalars := fun rest : list (string * value) =>
         ("CPU Info: Physical cores", v1) :: ("CPU Info: Total cores", v2)
         :: ("CPU Info: Max Frequency (MHz)", v3)
         :: ("CPU Info: Min Frequency (MHz)", v4)
         :: ("CPU Info: Current Frequency (MHz)", v5) :: rest).
  set (per_core_items :=
         map (fun iv => (index_key "CPU Info: CPU Usage per Core (%)" (fst iv),
                          snd iv))
             (enumerate_from 0 (map VFloat per_core))).
  assert (Hidx : forall key, In key (map fst per_core_items) ->
                 exists i, key = index_key "CPU Info: CPU Usage per Core (%)" i).
  { intros key Hin. unfold per_core_items in Hin. rewrite map_map in Hin.
    apply in_map_iff in Hin. destruct Hin as (iv & <- & _).
    now exists (fst iv). }
  assert (Hnodup : NoDup (map fst (per_core_items
                     ++ [("CPU Info: Total CPU Usage (%)", VFloat usage)]))).
  { rewrite map_app. apply NoDup_app.
    - apply index_keys_NoDup.
    - repeat constructor. intros [].
    - intros key Hin [<-|[]]. destruct (Hidx _ Hin) as [i Hi].
      discriminate Hi. }
  rewrite dict_of_items_NoDup.
  - cbn [List.length]. rewrite length_app. unfold per_core_items.
    rewrite length_map, enumerate_from_length, length_map.
    cbn [List.length value_leaves list_sum fold_right]. lia.
  - cbn [map fst]. repeat (constructor; [|]); try exact Hnodup;
      intros Hin; cbn [In] in Hin;
      repeat (destruct Hin as [Hin|Hin]; [discriminate Hin|]);
      rewrite map_app in Hin; apply in_app_or in Hin;
      (destruct Hin as [Hin|[Hin|[]]];
       [destruct (Hidx _ Hin) as [i Hi]; discriminate Hi | discriminate Hin]).
Qed.

Section CollectedShapes.

Variable truediv : Z -> Z -> float.
Variable round : float -> Z -> float.

Lemma get_os_info_flat (h : host) :
  exists r : py_dict, get_os_info h = Ok r /\ flat_record r = true.
Proof.
  unfold get_os_info, try_except, bind, ret.
  destruct (platform_system h), (platform_node h), (platform_release h),
    (platform_version h), (platform_machine h), (platform_processor h);
    eexists; split; reflexivity.
Qed.

Lemma get_memory_info_flat (h : host) :
  exists r : py_dict,
    get_memory_info truediv round h = Ok r /\ flat_record r = true.
Proof.
  unfold get_memory_info, try_except, bind, ret.
  destruct (psutil_virtual_memory h); eexists; split; reflexivity.
Qed.

Lemma get_cpu_info_lossless (h : host) :
  exists cpu : py_dict,
    get_cpu_info h = Ok cpu
    /\ List.length (flatten_dict cpu "CPU Info" ": ")
       = count_leaves (VDict cpu).
Proof.
  assert (Herror : forall e : exn,
            List.length (flatten_dict [("Error", VStr e)] "CPU Info" ": ")
            = count_leaves (VDict [("Error", VStr e)])) by reflexivity.
  unfold get_cpu_info, try_except, bind, ret.
  destruct (psutil_cpu_freq h) as [freq|]; [|eexists; split; [reflexivity|apply Herror]].
  destruct (psutil_cpu_count h false) as [physical|];
    [|eexists; split; [reflexivity|apply Herror]].
  destruct (psutil_cpu_count h true) as [total|];
    [|eexists; split; [reflexivity|apply Herror]].
  destruct (psutil_cpu_percent_percpu h) as [per_core|];
    [|eexists; split; [reflexivity|apply Herror]].
  destruct (psutil_cpu_percent h) as [usage|];
    [|eexists; split; [reflexivity|apply Herror]].
  eexists. split; [reflexivity|].
  apply cpu_record_lossless;
    solve [ now destruct physical | now destruct total | now destruct freq ].
Qed.

Lemma partition_record_flat (h : host) (partitions : list sdiskpart) :
  exists rs : list py_dict,
    map (partition_record truediv round h) partitions = map VDict rs
    /\ forallb flat_record rs = true.
Proof.
  induction partitions as [|p rest (rs & IH & Hflat)]; [now exists []|].
  cbn [map]. rewrite IH. unfold partition_record.
  destruct (psutil_disk_usage h (mountpoint p));
    eexists (_ :: rs); (split; [reflexivity|]);
    cbn [forallb]; rewrite Hflat; reflexivity.
Qed.

Lemma get_disk_info_flat (h : host) :
  exists rs : list py_dict,
    get_disk_info truediv round h = Ok (map VDict rs)
    /\ forallb flat_record rs = true.
Proof.
  destruct (psutil_disk_partitions h) as [partitions|e] eqn:E.
  - destruct (partition_record_flat h partitions) as (rs & H & Hflat).
    exists rs. now rewrite (get_disk_info_enumerated _ _ _ _ E), H.
  - eexists [_]. rewrite (get_disk_info_not_enumerated _ _ _ _ E).
    split; reflexivity.
Qed.

Lemma get_gpu_info_flat (h : host) :
  exists rs : list py_dict,
    get_gpu_info round h = Ok (map VDict rs)
    /\ forallb flat_record rs = true.
Proof.
  unfold get_gpu_info.
  destruct (HAS_GPU h); cbn [negb]; [|eexists [_]; split; reflexivity].
  destruct (GPUtil_getGPUs h) as [gpus|e]; cbn [try_except bind ret];
    [|eexists [_]; split; reflexivity].
  assert (H : exists rs : list py_dict,
            map (gpu_record round) gpus = map VDict rs
            /\ forallb flat_record rs = true).
  { induction gpus as [|g more (rs & IH & Hflat)]; [now exists []|].
    cbn [map]. rewrite IH. unfold gpu_record at 1.
    eexists (_ :: rs). split; [reflexivity|].
    cbn [forallb]. rewrite Hflat. reflexivity. }
  destruct gpus as [|g more]; [eexists [_]; split; reflexivity|].
  destruct H as (rs & -> & Hflat). now exists rs.
Qed.

End CollectedShapes.

(** X19: flattening the report of [collect_all_info] loses no leaf: on
    every host the paths of the leaves are pairwise distinct, so the
    flattened report has one pair per leaf and its CSV rows are the
    header and one row per leaf. *)
Theorem collected_report_flattens_without_loss :
  forall (truediv : Z -> Z -> float) (round : float -> Z -> float) (h : host),
    exists report : py_dict,
      collect_all_info truediv round h = Ok report
      /\ List.length (flatten report) = count_leaves (VDict report)
      /\ List.length (csv_rows report) = S (count_leaves (VDict report)).
Proof.
  intros truediv round h.
  destruct (get_os_info_flat h) as (os_info & Hos & Hos_flat).
  destruct (get_cpu_info_lossless h) as (cpu_info & Hcpu & Hcpu_leaves).
  destruct (get_memory_info_flat truediv round h)
    as (memory_info & Hmem & Hmem_flat).
  destruct (get_disk_info_flat truediv round h) as (disks & Hdisk & Hdisks).
  destruct (get_gpu_info_flat round h) as (gpus & Hgpu & Hgpus).
  unfold collect_all_info. rewrite Hos, Hcpu, Hmem, Hdisk, Hgpu.
  cbn [bind ret]. eexists. split; [reflexivity|].
  match goal with |- ?A /\ _ => assert (Hleaves : A) end.
  2: { split; [exact Hleaves|]. unfold csv_rows. cbn [List.length].
       now rewrite length_map, Hleaves. }
  rewrite count_leaves_dict. cbn [map snd]. rewrite !list_sum_cons.
  cbn [value_leaves list_sum fold_right].
  rewrite (records_leaves _ Hdisks), (records_leaves _ Hgpus).
  assert (Hos_scalars : forallb is_scalar (map snd os_info) = true)
    by (unfold flat_record in Hos_flat; now apply andb_prop in Hos_flat).
  assert (Hmem_scalars : forallb is_scalar (map snd memory_info) = true)
    by (unfold flat_record in Hmem_flat; now apply andb_prop in Hmem_flat).
  rewrite (count_leaves_flat _ Hos_scalars), (count_leaves_flat _ Hmem_scalars).
  rewrite <- Hcpu_leaves.
  unfold flatten. rewrite flatten_dict_unfold.
  unfold loop_items, entry_items. cbn [flat_map fst snd make_key].
  cbn [value_items]. unfold enumerate.
  rewrite (list_of_flat_records _ _ _ Hdisks),
    (list_of_flat_records _ _ _ Hgpus), app_nil_r.
  rewrite (flatten_dict_flat_record os_info "OS Info" _ Hos_flat)
    by discriminate.
  rewrite (flatten_dict_flat_record memory_info "Memory Info" _ Hmem_flat)
    by discriminate.
  assert (Hkeys : NoDup (List.concat (map snd
            [ ("T"%char, ["Timestamp"]);
              ("V"%char, ["Version"]);
              ("O"%char, map fst (map (under "OS Info" ": ") os_info));
              ("C"%char, map fst (flatten_dict cpu_info "CPU Info" ": "));
              ("M"%char, map fst (map (under "Memory Info" ": ") memory_info));
              ("D"%char, map fst (records_items ": " "Disk Info" 0 disks));
              ("G"%char, map fst (records_items ": " "GPU Info" 0 gpus)) ]))).
  { apply NoDup_by_head.
    - cbn [map fst].
      repeat (constructor; [cbn [In]; intuition discriminate|]). constructor.
    - repeat constructor; cbn [fst snd];
        try (intros []);
        try apply under_heads; try apply flatten_dict_heads;
        try apply records_items_heads; try apply flatten_dict_keys_NoDup;
        try (apply records_items_NoDup; assumption);
        try (apply under_keys_NoDup, keys_unique_NoDup;
             unfold flat_record in *;
             match goal with
             | H : (_ && keys_unique (map fst ?r))%bool = true
               |- keys_unique (map fst ?r) = true =>
                 now apply andb_prop in H
             end). }
  cbn [map snd List.concat app] in Hkeys. rewrite app_nil_r in Hkeys.
  unfold default_sep.
  rewrite dict_of_items_NoDup.
  - cbn [app List.length]. rewrite !length_app, !length_map.
    rewrite !records_items_length. lia.
  - cbn [app map fst]. rewrite !map_app. exact Hkeys.
Qed.

(** ** The text renderer outside the shape of a report *)




(** X21: the text renderer does not guard the types of the groups.  When
    [OS Info] holds anything but a record, it raises the error of the
    missing [get] after the four lines printed so far; when the three
    records are in order and [GPU Info] is an empty list, it raises
    "list index out of range" after the fifteen lines of the first
    sections. *)
Theorem print_human_readable_wrong_types :
  forall (data : py_dict) (w : world),
    (forall v : value,
       dict_lookup data "OS Info" = Some v -> is_dict v = false ->
       print_human_readable data w
       = (Raise ("'" ++ type_name v ++ "' object has no attribute 'get'")%string,
          {| stdout := stdout w ++ firstn 4 (spec_text data);
             files := files w;
             pending := pending w |}))
    /\ (record_or_missing data "OS Info" = true ->
        record_or_missing data "CPU Info" = true ->
        record_or_missing data "Memory Info" = true ->
        dict_lookup data "GPU Info" = Some (VList []) ->
        print_human_readable data w
        = (Raise "list index out of range",
           {| stdout := stdout w ++ firstn 15 (spec_text data);
              files := files w;
              pending := pending w |})).
Proof.
  intros data w. split.
  - intros v Hv Hnot. unfold print_human_readable, print_human_readable_on, spec_text,
      dict_get.
    rewrite Hv.
    destruct v; try discriminate Hnot;
      cbn [py_get lift io_bind print_on accepting stdout files pending type_name firstn app];
      repeat rewrite <- app_assoc; reflexivity.
  - intros Hos Hcpu Hmem Hgpu.
    unfold record_or_missing in *.
    destruct (dict_lookup data "OS Info") as [[| | | | | |os_info]|] eqn:Eos;
      try discriminate Hos;
      destruct (dict_lookup data "CPU Info") as [[| | | | | |cpu_info]|]
        eqn:Ecpu; try discriminate Hcpu;
      destruct (dict_lookup data "Memory Info") as [[| | | | | |mem_info]|]
        eqn:Emem; try discriminate Hmem;
      unfold print_human_readable, print_human_readable_on, spec_text,
        dict_get, group;
      rewrite ?Eos, ?Ecpu, ?Emem, Hgpu;
      cbn [py_get py_first lift io_bind print_on accepting stdout files pending firstn app];
      rewrite ?shown_get; repeat rewrite <- app_assoc; reflexivity.
Qed.

Lemma print_human_readable_wrong_types_witness :
  print_human_readable [("OS Info", VStr "Linux")] (fresh [])
  = (Raise "'str' object has no attribute 'get'",
     {| stdout := [ [Lit (newline ++ "System Specs Collector v")%string;
                     Fmt (VStr "1.0.0")];
                    [Lit (str_repeat "=" 50)];
                    [Lit "Timestamp: "; Fmt VNone];
                    [Lit (newline ++ "Operating System:")%string] ];
        files := [];
        pending := [] |})
  /\ fst (print_human_readable [("GPU Info", VList [])] (fresh []))
     = Raise "list index out of range".
Proof.
  split.
  - exact (proj1 (print_human_readable_wrong_types
                    [("OS Info", VStr "Linux")] (fresh []))
             (VStr "Linux") eq_refl eq_refl).
  - rewrite (proj2 (print_human_readable_wrong_types
                      [("GPU Info", VList [])] (fresh []))
               eq_refl eq_refl eq_refl eq_refl).
    reflexivity.
Defined.

(** ** The renderers on any standard output *)

Lemma print_on_taken (out : terminal) (l : line) (w : world) :
  out l = None ->
  print_on out l w
  = (Ok tt, {| stdout := stdout w ++ [l];
               files := files w;
               pending := pending w |}).
Proof. intros H. unfold print_on. now rewrite H. Qed.

Lemma print_on_refused (out : terminal) (l : line) (e : exn) (w : world) :
  out l = Some e -> print_on out l w = (Raise e, w).
Proof. intros H. unfold print_on. now rewrite H. Qed.

Lemma print_human_readable_on_report (out : terminal) (data : py_dict)
  (w : world) :
  SystemReport data ->
  Forall (fun l => out l = None) (spec_text data) ->
  print_human_readable_on out data w
  = (Ok tt, {| stdout := stdout w ++ spec_text data;
               files := files w;
               pending := pending w |}).
Proof.
  intros (timestamp & version & os_info & cpu_info & memory_info & disks
          & gpu & gpus & ->) Hout.
  rewrite Forall_forall in Hout.
  unfold print_human_readable_on, spec_text, group, first_gpu in *.
  cbn [dict_get dict_lookup String.eqb Ascii.eqb Bool.eqb map py_first] in *.
  destruct (dict_mem gpu "Name") eqn:Ename;
    [|destruct (dict_mem gpu "ID") eqn:Eid];
    cbn [orb app] in Hout;
    repeat first
      [ rewrite print_on_taken
          by (apply Hout; repeat (first [left; reflexivity | right]))
      | rewrite Ename
      | rewrite Eid
      | progress cbn beta iota delta
          [lift py_get py_contains io_ret stdout files pending]
      | unfold io_bind at 1 ];
    rewrite ?shown_get; cbn [orb]; repeat rewrite <- app_assoc; reflexivity.
Qed.

(** The notices of the savers begin with a mark outside ASCII. *)
Lemma ascii_stdout_refuses_notices (filename : string) (e : exn) :
  ascii_stdout (saved_notice filename) = Some ascii_codec_error
  /\ ascii_stdout (csv_failure_notice e) = Some ascii_codec_error
  /\ ascii_stdout (json_failure_notice e) = Some ascii_codec_error.
Proof. repeat apply conj; reflexivity. Qed.

(** What a saver built from a framed body does on any standard output:
    it keeps the frame, and it either returns with one notice printed or
    raises the refusal of its failure notice with nothing printed. *)
Lemma saver_on_notice (out : terminal) (filename : string) (body : io unit)
  (failure : exn -> line) (w : world) :
  only_touches filename w (snd (body w)) ->
  let run := io_try_except
               (io_bind body (fun _ => print_on out (saved_notice filename)))
               (fun e => print_on out (failure e)) w in
  (forall other : string,
     other <> filename ->
     file_lookup (files (snd run)) other = file_lookup (files w) other)
  /\ ((fst run = Ok tt
       /\ exists notice : line,
            out notice = None
            /\ stdout (snd run) = stdout w ++ [notice]
            /\ (notice = saved_notice filename
                \/ exists e : exn, notice = failure e))
      \/ (exists e e' : exn,
            out (failure e) = Some e'
            /\ fst run = Raise e'
            /\ stdout (snd run) = stdout w)).
Proof.
  intros [Hout Hfs]. cbv zeta. unfold io_try_except, io_bind, print_on.
  destruct (body w) as [[[]|e] w1]; cbn [snd] in Hout, Hfs.
  - destruct (out (saved_notice filename)) as [e1|] eqn:Esaved.
    + destruct (out (failure e1)) as [e2|] eqn:Efailure;
        cbn [fst snd stdout files]; (split; [exact Hfs|]).
      * right. exists e1, e2. now repeat split.
      * left. split; [reflexivity|]. exists (failure e1).
        rewrite Hout. repeat split; [exact Efailure|]. right. now exists e1.
    + cbn [fst snd stdout files]. split; [exact Hfs|].
      left. split; [reflexivity|]. exists (saved_notice filename).
      rewrite Hout. repeat split; [exact Esaved|]. now left.
  - destruct (out (failure e)) as [e2|] eqn:Efailure;
      cbn [fst snd stdout files]; (split; [exact Hfs|]).
    + right. exists e, e2. now repeat split.
    + left. split; [reflexivity|]. exists (failure e).
      rewrite Hout. repeat split; [exact Efailure|]. right. now exists e.
Qed.

(** A saver returns when standard output takes its failure notices. *)
Lemma saver_on_returns (out : terminal) (body : io unit)
  (success : line) (failure : exn -> line) (w : world) :
  (forall e : exn, out (failure e) = None) ->
  fst (io_try_except (io_bind body (fun _ => print_on out success))
         (fun e => print_on out (failure e)) w) = Ok tt.
Proof.
  intros Hfailure. unfold io_try_except, io_bind.
  destruct (body w) as [[[]|e] w1].
  - unfold print_on at 1. destruct (out success) as [e1|]; [|reflexivity].
    now rewrite (print_on_taken out (failure e1) w1 (Hfailure e1)).
  - now rewrite (print_on_taken out (failure e) w1 (Hfailure e)).
Qed.

(** A saver raises when standard output refuses each of its notices with
    the same error. *)
Lemma saver_on_raises (out : terminal) (body : io unit)
  (success : line) (failure : exn -> line) (refusal : exn) (w : world) :
  out success = Some refusal ->
  (forall e : exn, out (failure e) = Some refusal) ->
  fst (io_try_except (io_bind body (fun _ => print_on out success))
         (fun e => print_on out (failure e)) w) = Raise refusal.
Proof.
  intros Hsuccess Hfailure. unfold io_try_except, io_bind.
  destruct (body w) as [[[]|e] w1].
  - rewrite (print_on_refused out success refusal w1 Hsuccess).
    now rewrite (print_on_refused out (failure refusal) refusal w1
                   (Hfailure refusal)).
  - now rewrite (print_on_refused out (failure e) refusal w1 (Hfailure e)).
Qed.

Lemma save_to_csv_on_ascii_stdout (data : py_dict) (filename : string)
  (w : world) :
  fst (save_to_csv_on ascii_stdout data filename w) = Raise ascii_codec_error.
Proof.
  apply saver_on_raises; [reflexivity | intros e; reflexivity].
Qed.

Lemma save_to_json_on_ascii_stdout (data : py_dict) (filename : string)
  (w : world) :
  fst (save_to_json_on ascii_stdout data filename w) = Raise ascii_codec_error.
Proof.
  apply saver_on_raises; [reflexivity | intros e; reflexivity].
Qed.

(** ** Rendering and the standard output *)

(** C4 as stated fails on a standard output that cannot encode the marks
    of the notices: there the CSV and the JSON renderer raise, the
    failure notice of the handler being refused as well. *)
Lemma rendering_raises_on_ascii_stdout :
  SystemReport failed_report
  /\ fst (save_to_csv_on ascii_stdout failed_report "system_specs.csv"
            (fresh []))
     = Raise ascii_codec_error
  /\ fst (save_to_json_on ascii_stdout failed_report "system_specs.json"
            (fresh []))
     = Raise ascii_codec_error
  /\ ~ (forall (out : terminal) (data : py_dict),
          SystemReport data ->
          forall (filename : string) (w : world),
            fst (save_to_csv_on out data filename w) = Ok tt
            /\ fst (save_to_json_on out data filename w) = Ok tt).
Proof.
  repeat apply conj.
  - exact failed_report_shape.
  - reflexivity.
  - reflexivity.
  - intros H.
    destruct (H ascii_stdout failed_report failed_report_shape
                "system_specs.csv" (fresh [])) as [Hcsv _].
    discriminate Hcsv.
Qed.

(** C4, amended: rendering a SystemReport returns normally in each of the
    three formats as long as standard output takes what is printed.  The
    text renderer prints the text of [spec_text] when its lines are
    taken, a field missing from its record being shown as ["N/A"]; the
    CSV and the JSON renderer return, whatever the report and whatever
    the file operations do, when their failure notices are taken. *)
Theorem rendering_returns_when_stdout_accepts :
  forall (out : terminal) (data : py_dict),
    SystemReport data ->
    forall (filename : string) (w : world),
      (Forall (fun l => out l = None) (spec_text data) ->
       print_human_readable_on out data w
       = (Ok tt, {| stdout := stdout w ++ spec_text data;
                    files := files w;
                    pending := pending w |}))
      /\ ((forall e : exn, out (csv_failure_notice e) = None) ->
          fst (save_to_csv_on out data filename w) = Ok tt)
      /\ ((forall e : exn, out (json_failure_notice e) = None) ->
          fst (save_to_json_on out data filename w) = Ok tt)
      /\ (forall (record : py_dict) (field : string),
            dict_mem record field = false ->
            shown record field = VStr "N/A").
Proof.
  intros out data Hreport filename w. repeat apply conj.
  - now apply print_human_readable_on_report.
  - intros Hfailure. now apply saver_on_returns.
  - intros Hfailure. now apply saver_on_returns.
  - intros record field. unfold dict_mem, shown.
    now destruct (dict_lookup record field).
Qed.

Lemma rendering_returns_when_stdout_accepts_witness :
  print_human_readable_on ascii_stdout failed_report (fresh [])
  = (Ok tt,
     {| stdout :=
          [ [Lit (newline ++ "System Specs Collector v")%string;
             Fmt (VStr "1.0.0")];
            [Lit (str_repeat "=" 50)];
            [Lit "Timestamp: "; Fmt (VStr "2024-01-01T00:00:00")];
            [Lit (newline ++ "Operating System:")%string];
            [Lit "  System: "; Fmt (VStr "N/A")];
            [Lit "  Version: "; Fmt (VStr "N/A")];
            [Lit "  Machine: "; Fmt (VStr "N/A")];
            [Lit (newline ++ "CPU Information:")%string];
            [Lit "  Physical Cores: "; Fmt (VStr "N/A")];
            [Lit "  Total Cores: "; Fmt (VStr "N/A")];
            [Lit "  Current Frequency: "; Fmt (VStr "N/A"); Lit " MHz"];
            [Lit "  Total Usage: "; Fmt (VStr "N/A"); Lit "%"];
            [Lit (newline ++ "Memory Information:")%string];
            [Lit "  Total: "; Fmt (VStr "N/A"); Lit " GB"];
            [Lit "  Used: "; Fmt (VStr "N/A"); Lit " GB (";
             Fmt (VStr "N/A"); Lit "%)"] ];
        files := [];
        pending := [] |})
  /\ fst (save_to_csv_on accepting failed_report "system_specs.csv"
            (fresh [Some "[Errno 13] Permission denied"]))
     = Ok tt
  /\ fst (save_to_json_on accepting failed_report "system_specs.json"
            (fresh [None; Some "[Errno 28] No space left on device"]))
     = Ok tt.
Proof.
  assert (Htext : Forall (fun l => ascii_stdout l = None)
                    (spec_text failed_report))
    by (repeat constructor).
  assert (Hnotice : forall (failure : exn -> line) (e : exn),
            accepting (failure e) = None)
    by reflexivity.
  repeat apply conj.
  - exact (proj1 (rendering_returns_when_stdout_accepts ascii_stdout
                    failed_report failed_report_shape "system_specs"
                    (fresh []))
             Htext).
  - exact (proj1 (proj2 (rendering_returns_when_stdout_accepts accepting
                           failed_report failed_report_shape
                           "system_specs.csv"
                           (fresh [Some "[Errno 13] Permission denied"])))
             (Hnotice csv_failure_notice)).
  - exact (proj1 (proj2 (proj2 (rendering_returns_when_stdout_accepts
                           accepting failed_report failed_report_shape
                           "system_specs.json"
                           (fresh [None;
                                   Some "[Errno 28] No space left on device"]))))
             (Hnotice json_failure_notice)).
Defined.

(** ** The savers on any standard output *)

(** X12: whatever the file operations do and whatever standard output
    takes, each saver leaves every file but its own as it was, and it
    either returns normally with exactly one line printed, the success
    notice or its failure notice, or raises the error with which
    standard output refused its failure notice, with nothing printed.
    It returns normally whenever standard output takes its failure
    notices. *)
Theorem savers_print_one_notice_and_keep_other_files :
  forall (out : terminal) (data : py_dict) (filename : string) (w : world),
    ((forall other : string,
        other <> filename ->
        file_lookup (files (snd (save_to_csv_on out data filename w))) other
        = file_lookup (files w) other)
     /\ ((fst (save_to_csv_on out data filename w) = Ok tt
          /\ exists notice : line,
               out notice = None
               /\ stdout (snd (save_to_csv_on out data filename w))
                  = stdout w ++ [notice]
               /\ (notice = saved_notice filename
                   \/ exists e : exn, notice = csv_failure_notice e))
         \/ (exists e e' : exn,
               out (csv_failure_notice e) = Some e'
               /\ fst (save_to_csv_on out data filename w) = Raise e'
               /\ stdout (snd (save_to_csv_on out data filename w))
                  = stdout w))
     /\ ((forall e : exn, out (csv_failure_notice e) = None) ->
         fst (save_to_csv_on out data filename w) = Ok tt))
    /\ ((forall other : string,
           other <> filename ->
           file_lookup (files (snd (save_to_json_on out data filename w)))
             other
           = file_lookup (files w) other)
        /\ ((fst (save_to_json_on out data filename w) = Ok tt
             /\ exists notice : line,
                  out notice = None
                  /\ stdout (snd (save_to_json_on out data filename w))
                     = stdout w ++ [notice]
                  /\ (notice = saved_notice filename
                      \/ exists e : exn, notice = json_failure_notice e))
            \/ (exists e e' : exn,
                  out (json_failure_notice e) = Some e'
                  /\ fst (save_to_json_on out data filename w) = Raise e'
                  /\ stdout (snd (save_to_json_on out data filename w))
                     = stdout w))
        /\ ((forall e : exn, out (json_failure_notice e) = None) ->
            fst (save_to_json_on out data filename w) = Ok tt)).
Proof.
  intros out data filename w. split.
  - destruct (saver_on_notice out filename _ csv_failure_notice w
                (csv_body_frame data filename w)) as [Hframe Hrun].
    repeat apply conj; [exact Hframe | exact Hrun |].
    intros Hfailure. now apply saver_on_returns.
  - destruct (saver_on_notice out filename _ json_failure_notice w
                (json_body_frame data filename w)) as [Hframe Hrun].
    repeat apply conj; [exact Hframe | exact Hrun |].
    intros Hfailure. now apply saver_on_returns.
Qed.

Lemma savers_print_one_notice_and_keep_other_files_witness :
  file_lookup
    (files (snd (save_to_csv_on ascii_stdout failed_report "new.csv"
                   {| stdout := [];
                      files := [("old.json", JsonDocument 4 VNone)];
                      pending := [None; None; Some "disk full"] |})))
    "old.json"
  = Some (JsonDocument 4 VNone)
  /\ fst (save_to_json_on accepting failed_report "new.json"
            (fresh [Some "[Errno 13] Permission denied"]))
     = Ok tt.
Proof.
  split.
  - apply (proj1 (proj1 (savers_print_one_notice_and_keep_other_files
                           ascii_stdout failed_report "new.csv"
                           {| stdout := [];
                              files := [("old.json", JsonDocument 4 VNone)];
                              pending := [None; None; Some "disk full"] |}))).
    discriminate.
  - apply (proj2 (proj2 (proj2 (savers_print_one_notice_and_keep_other_files
                                  accepting failed_report "new.json"
                                  (fresh [Some "[Errno 13] Permission denied"]))))).
    reflexivity.
Defined.

(** ** An interrupted save *)

Lemma writerow_taken (filename : string) (row : list value)
  (out : list line) (fs : list (string * file_content))
  (rest : list (option exn)) :
  writerow filename row {| stdout := out; files := fs; pending := None :: rest |}
  = (Ok tt,
     {| stdout := out;
        files := file_store fs filename
                   (CsvRows (written_rows fs filename ++ [row]));
        pending := rest |}).
Proof. reflexivity. Qed.

Lemma writerow_torn (filename : string) (row : list value)
  (out : list line) (fs : list (string * file_content)) (e : exn)
  (rest : list (option exn)) :
  writerow filename row
    {| stdout := out; files := fs; pending := Some e :: rest |}
  = (Raise e, {| stdout := out;
                 files := file_store fs filename TornFile;
                 pending := rest |}).
Proof. reflexivity. Qed.

(** The loop over the rows when the write after the first [j] fails. *)
Lemma for_each_writerow_torn (filename : string)
  (cells : string * value -> list value) (items : list (string * value))
  (out : list line) (e : exn) (rest : list (option exn)) :
  forall (j : nat) (fs : list (string * file_content)),
    (j < List.length items)%nat ->
    exists fs' : list (string * file_content),
      for_each items (fun kv => writerow filename (cells kv))
        {| stdout := out; files := fs;
           pending := repeat None j ++ Some e :: rest |}
      = (Raise e, {| stdout := out; files := fs'; pending := rest |})
      /\ file_lookup fs' filename = Some TornFile.
Proof.
  induction items as [|kv more IH]; intros j fs Hj;
    cbn [List.length] in Hj; [lia|].
  destruct j as [|j].
  - exists (file_store fs filename TornFile).
    cbn [repeat app for_each]. unfold io_bind.
    rewrite writerow_torn. split; [reflexivity | apply file_lookup_store].
  - cbn [repeat app for_each]. unfold io_bind at 1. rewrite writerow_taken.
    apply IH. lia.
Qed.

(** The loop over the rows when every write succeeds. *)
Lemma for_each_writerow_taken (filename : string)
  (cells : string * value -> list value) (items : list (string * value))
  (out : list line) (rest : list (option exn)) :
  forall fs : list (string * file_content),
    exists fs' : list (string * file_content),
      for_each items (fun kv => writerow filename (cells kv))
        {| stdout := out; files := fs;
           pending := repeat None (List.length items) ++ rest |}
      = (Ok tt, {| stdout := out; files := fs'; pending := rest |}).
Proof.
  induction items as [|kv more IH]; intros fs.
  - exists fs. reflexivity.
  - cbn [List.length repeat app for_each]. unfold io_bind at 1.
    rewrite writerow_taken. apply IH.
Qed.

(** Closing the file after the body of the [with] block has raised. *)
Lemma close_after_failure (filename : string) (e : exn) (out : list line)
  (fs : list (string * file_content)) (rest : list (option exn)) :
  file_lookup fs filename = Some TornFile ->
  exists (fs' : list (string * file_content)) (rest' : list (option exn)),
    io_bind (close filename) (fun _ => lift (A := unit) (Raise e))
      {| stdout := out; files := fs; pending := rest |}
    = (Raise (match rest with
              | Some e' :: _ => e'
              | _ => e
              end),
       {| stdout := out; files := fs'; pending := rest' |})
    /\ file_lookup fs' filename = Some TornFile.
Proof.
  intros Hfile. destruct rest as [|[e'|] rest'].
  - exists fs, []. split; [reflexivity | exact Hfile].
  - exists (file_store fs filename TornFile), rest'.
    split; [reflexivity | apply file_lookup_store].
  - exists fs, rest'. split; [reflexivity | exact Hfile].
Qed.

(** X15: saving to CSV is not atomic.  When the file is opened, [j]
    writes succeed and the next operation on the file fails with [e], a
    write ([j] at most the number of pairs) or the closing of the file
    (one more), the file is left torn: what it holds of the rows is not
    determined.  One failure notice is printed; it carries [e], or the
    cause of the failure of the closing when a write has failed and the
    closing fails after it. *)
Theorem save_to_csv_interrupted_leaves_torn_file :
  forall (data : py_dict) (filename : string) (w : world) (j : nat) (e : exn)
         (rest : list (option exn)),
    pending w = repeat None (S j) ++ Some e :: rest ->
    (j <= S (List.length (flatten data)))%nat ->
    stdout (snd (save_to_csv data filename w))
    = stdout w
      ++ [csv_failure_notice
            (if (j <=? List.length (flatten data))%nat then
               match rest with
               | Some e' :: _ => e'
               | _ => e
               end
             else e)]
    /\ file_lookup (files (snd (save_to_csv data filename w))) filename
       = Some TornFile.
Proof.
  intros data filename [out fs pend] j e rest Hpend Hj.
  cbn [pending] in Hpend. subst pend. cbn [stdout].
  assert (Hrun : exists (fs' : list (string * file_content))
                        (rest' : list (option exn)),
            save_to_csv data filename
              {| stdout := out; files := fs;
                 pending := repeat None (S j) ++ Some e :: rest |}
            = (Ok tt,
               {| stdout :=
                    out ++ [csv_failure_notice
                              (if (j <=? List.length (flatten data))%nat then
                                 match rest with
                                 | Some e' :: _ => e'
                                 | _ => e
                                 end
                               else e)];
                  files := fs'; pending := rest' |})
            /\ file_lookup fs' filename = Some TornFile).
  { cbn [repeat app].
    unfold save_to_csv, save_to_csv_on, io_try_except, with_open, open_w.
    unfold io_bind at 1 2 3. cbn [file_operation pending stdout files].
    unfold set_file at 1. cbn [stdout files pending].
    set (fs0 := file_store fs filename EmptyFile).
    destruct j as [|j].
    - cbn [repeat app Nat.leb]. unfold io_bind at 1. rewrite writerow_torn.
      destruct (close_after_failure filename e out
                  (file_store fs0 filename TornFile) rest
                  (file_lookup_store _ _ _))
        as (fs' & rest' & -> & Hfile).
      exists fs', rest'. split; [reflexivity | exact Hfile].
    - cbn [repeat app]. unfold io_bind at 1. rewrite writerow_taken.
      destruct (Nat.leb_spec (S j) (List.length (flatten data))) as [Hle|Hgt].
      + destruct (for_each_writerow_torn filename
                    (fun kv => [VStr (fst kv); snd kv]) (flatten data) out e
                    rest j
                    (file_store fs0 filename
                       (CsvRows (written_rows fs0 filename
                                 ++ [[VStr "Property"; VStr "Value"]]))))
          as (fs1 & -> & Hfile1); [lia|].
        destruct (close_after_failure filename e out fs1 rest Hfile1)
          as (fs' & rest' & -> & Hfile).
        exists fs', rest'. split; [reflexivity | exact Hfile].
      + assert (Hall : j = List.length (flatten data)) by lia. subst j.
        destruct (for_each_writerow_taken filename
                    (fun kv => [VStr (fst kv); snd kv]) (flatten data) out
                    (Some e :: rest)
                    (file_store fs0 filename
                       (CsvRows (written_rows fs0 filename
                                 ++ [[VStr "Property"; VStr "Value"]]))))
          as (fs1 & ->).
        exists (file_store fs1 filename TornFile), rest.
        split; [reflexivity | apply file_lookup_store]. }
  destruct Hrun as (fs' & rest' & -> & Hfile). cbn [fst snd stdout files].
  split; [reflexivity | exact Hfile].
Qed.

Lemma save_to_csv_interrupted_leaves_torn_file_witness :
  stdout (snd (save_to_csv [("A", VList [VInt 1; VInt 2])] "out.csv"
                 (fresh [None; None; None; Some "disk full";
                         Some "closing failed"])))
  = [csv_failure_notice "closing failed"]
  /\ file_lookup
       (files (snd (save_to_csv [("A", VList [VInt 1; VInt 2])] "out.csv"
                      (fresh [None; None; None; Some "disk full";
                              Some "closing failed"]))))
       "out.csv"
     = Some TornFile.
Proof.
  assert (Hj : (2 <= S (List.length
                           (flatten [("A", VList [VInt 1; VInt 2])])))%nat)
    by (cbn; lia).
  exact (save_to_csv_interrupted_leaves_torn_file
           [("A", VList [VInt 1; VInt 2])] "out.csv"
           (fresh [None; None; None; Some "disk full";
                   Some "closing failed"])
           2 "disk full" [Some "closing failed"] eq_refl Hj).
Defined.

(** ** [main] on any standard output *)

Lemma main_on_runs (truediv : Z -> Z -> float) (round : float -> Z -> float)
  (out : terminal) (args : arguments) (h : host) (w : world) :
  exists report : py_dict,
    collect_all_info truediv round h = Ok report
    /\ SystemReport report
    /\ main_on truediv round out args h w
       = (if String.eqb (format args) "csv" then
            save_to_csv_on out report (output args ++ ".csv")
          else if String.eqb (format args) "json" then
            save_to_json_on out report (output args ++ ".json")
          else print_human_readable_on out report) w.
Proof.
  destruct (collect_all_info_report truediv round h)
    as (report & Hreport & _ & Hshape).
  exists report. split; [exact Hreport|]. split; [exact Hshape|].
  unfold main_on, io_bind, lift. now rewrite Hreport.
Qed.

(** X16: once the arguments are parsed, no failure of a query or of a
    file operation ends [main] with an exception; only standard output
    can.  On every host, [main] returns normally in text mode when
    standard output takes the lines of the report, and in [csv] and
    [json] mode when it takes the failure notices of the saver,
    whatever the file operations do.  On a standard output with the
    ASCII codec, [main] ends with the error of the codec in [csv] and in
    [json] mode, on every host. *)
Theorem main_raises_only_when_stdout_refuses :
  forall (truediv : Z -> Z -> float) (round : float -> Z -> float)
         (out : terminal) (args : arguments) (h : host) (w : world),
    exists report : py_dict,
      collect_all_info truediv round h = Ok report
      /\ (format args <> "csv" ->
          format args <> "json" ->
          Forall (fun l => out l = None) (spec_text report) ->
          fst (main_on truediv round out args h w) = Ok tt)
      /\ (format args = "csv" ->
          (forall e : exn, out (csv_failure_notice e) = None) ->
          fst (main_on truediv round out args h w) = Ok tt)
      /\ (format args = "json" ->
          (forall e : exn, out (json_failure_notice e) = None) ->
          fst (main_on truediv round out args h w) = Ok tt)
      /\ (format args = "csv" \/ format args = "json" ->
          fst (main_on truediv round ascii_stdout args h w)
          = Raise ascii_codec_error).
Proof.
  intros truediv round out args h w.
  destruct (main_on_runs truediv round out args h w)
    as (report & Hreport & Hshape & Hrun).
  exists report. split; [exact Hreport|]. rewrite Hrun. repeat apply conj.
  - intros Hcsv Hjson Htext.
    apply String.eqb_neq in Hcsv, Hjson. rewrite Hcsv, Hjson.
    now rewrite (print_human_readable_on_report out report w Hshape Htext).
  - intros -> Hfailure. cbn [String.eqb Ascii.eqb Bool.eqb andb].
    now apply saver_on_returns.
  - intros -> Hfailure. cbn [String.eqb Ascii.eqb Bool.eqb andb].
    now apply saver_on_returns.
  - intros Hformat.
    destruct (main_on_runs truediv round ascii_stdout args h w)
      as (report' & _ & _ & ->).
    destruct Hformat as [-> | ->]; cbn [String.eqb Ascii.eqb Bool.eqb andb].
    + apply save_to_csv_on_ascii_stdout.
    + apply save_to_json_on_ascii_stdout.
Qed.

Lemma main_raises_only_when_stdout_refuses_witness :
  fst (main_on py_truediv py_round ascii_stdout default_arguments
         (failing_host "down" false (Ok [])) (fresh []))
  = Ok tt
  /\ fst (main_on py_truediv py_round ascii_stdout
            {| format := "csv"; output := "system_specs" |}
            (failing_host "down" false (Ok [])) (fresh []))
     = Raise ascii_codec_error.
Proof.
  split.
  - destruct (main_raises_only_when_stdout_refuses py_truediv py_round
                ascii_stdout default_arguments
                (failing_host "down" false (Ok [])) (fresh []))
      as (report & Hreport & Htext & _).
    apply Htext; [discriminate | discriminate |].
    injection Hreport as <-. repeat constructor.
  - destruct (main_raises_only_when_stdout_refuses py_truediv py_round
                ascii_stdout {| format := "csv"; output := "system_specs" |}
                (failing_host "down" false (Ok [])) (fresh []))
      as (report & _ & _ & _ & _ & Hraise).
    apply Hraise. now left.
Defined.
